(** * mermaid-server: the caching generator (internal/generator.go)

    A shallow embedding of [cachingGenerator] and of its three operations
    [Generate], [generate] and [CleanUp]/[delete].

    The generator talks to four collaborators: the diagram cache (the
    [DiagramCache] interface), the file system ([ioutil.WriteFile],
    [os.Stat], [os.Remove]), the mermaid command line program
    ([exec.Command(...).Run()]) and the clock ([time.Now]).  Every call to a
    collaborator is an [event]; a Go function becomes a tree of events
    ([prog]) whose continuation receives the collaborator's answer.  Running
    a tree against an environment ([run]) yields the Go return value, the
    final environment and the list of calls that were made, each with the
    answer it got. *)

From stdpp Require Import base strings list gmap.
From Stdlib Require Import ZArith.
From Stdlib.Strings Require Import Byte.

Local Open Scope string_scope.
Local Open Scope Z_scope.
Local Open Scope list_scope.

(** ** Errors *)

(** Go [error] values.  [PathError] is [*os.PathError]: [notExist] tells
    whether the underlying errno is ENOENT.  [OtherError] is any other error
    a collaborator hands back (cache, exec, fingerprinting).  [Errorf] is
    [fmt.Errorf] with one [%w] verb wrapping [cause]; [args] are the values
    of the [%s] verbs in order. *)
Inductive error : Type :=
| PathError (op path : string) (notExist : bool)
| OtherError (msg : string)
| Errorf (format : string) (args : list string) (cause : error).

(** [os.IsNotExist]: predates [errors.Is] and does not look through
    [fmt.Errorf] wrappers. *)
Definition IsNotExist (err : error) : bool :=
  match err with
  | PathError _ _ notExist => notExist
  | _ => false
  end.

(** A Go pair [(T, error)] of which the value is only used when the error
    is nil. *)
Inductive result (A : Type) : Type :=
| Ok (a : A)
| Err (err : error).
Arguments Ok {A} a.
Arguments Err {A} err.

(** ** Diagram *)

(** The fields of [Diagram] that generator.go reads or writes.
    [lastTouched] is a [time.Time], here an instant in nanoseconds. *)
Record Diagram : Type := mkDiagram {
  description : list byte;
  imgType : string;
  Output : string;
  lastTouched : Z;
}.

Definition set_Output (d : Diagram) (path : string) : Diagram :=
  {| description := description d; imgType := imgType d;
     Output := path; lastTouched := lastTouched d |}.

Definition set_lastTouched (d : Diagram) (t : Z) : Diagram :=
  {| description := description d; imgType := imgType d;
     Output := Output d; lastTouched := t |}.

(** ** cachingGenerator *)

(** The configuration fields of [cachingGenerator]; its [cache] field is the
    collaborator that answers the [Cache...] events below. *)
Record cachingGenerator : Type := mkGenerator {
  mermaidCLIPath : string;
  inPath : string;
  outPath : string;
  puppeteerConfigPath : string;
}.

(** ** Events *)

Inductive event : Type :=
| CacheHas (d : Diagram)
| CacheGet (d : Diagram)
| CacheStore (d : Diagram)
| CacheGetAll
| CacheDelete (d : Diagram)
| WriteFile (path : string) (data : list byte) (perm : Z)
| Stat (path : string)
| Run (name : string) (args : list string)
| Remove (path : string)
| Now
| Printf (msg : string).

(** What the collaborator answers.  [Run] answers with the error of
    [cmd.Run()] and the contents of the two capture buffers. *)
Definition resp (e : event) : Type :=
  match e with
  | CacheHas _ => result bool
  | CacheGet _ => result Diagram
  | CacheStore _ => option error
  | CacheGetAll => result (list Diagram)
  | CacheDelete _ => option error
  | WriteFile _ _ _ => option error
  | Stat _ => option error
  | Run _ _ => (option error * string * string)%type
  | Remove _ => option error
  | Now => Z
  | Printf _ => unit
  end.

(** ** Programs *)

Inductive prog (A : Type) : Type :=
| Ret (a : A)
| Vis (e : event) (k : resp e → prog A).
Arguments Ret {A} a.
Arguments Vis {A} e k.

Fixpoint bind {A B : Type} (p : prog A) (f : A → prog B) : prog B :=
  match p with
  | Ret a => f a
  | Vis e k => Vis e (λ r, bind (k r) f)
  end.

Definition call (e : event) : prog (resp e) := Vis e Ret.

Module ProgNotations.
Notation "x <- p ;; q" := (bind p (λ x, q))
  (at level 100, p at next level, right associativity, only parsing).
Notation "p ;; q" := (bind p (λ _, q))
  (at level 100, right associativity, only parsing).
End ProgNotations.
Import ProgNotations.

(** A call together with the answer it received. *)
Record answered : Type := Call {
  call_event : event;
  call_resp : resp call_event;
}.

Section Run.
Context {W : Type}.
(** The environment: how a world of type [W] answers an event and what
    world it leaves. *)
Variable handle : ∀ e : event, W → resp e * W.

Fixpoint run {A : Type} (p : prog A) (w : W) : A * W * list answered :=
  match p with
  | Ret a => (a, w, [])
  | Vis e k =>
      let '(r, w1) := handle e w in
      let '(a, w2, tr) := run (k r) w1 in
      (a, w2, Call e r :: tr)
  end.
End Run.

(** ** Diagram methods

    generator.go calls three methods of [Diagram] that are defined outside
    it: [ID], [Touch] and [TouchedInDuration]. *)

Section Generator.
(** generator.go relies only on the signature [(string, error)] of
    [Diagram.ID].  The fingerprint function is a parameter: the identity is
    computed from the description and the image type. *)
Variable fingerprint : list byte → string → result string.

(** Modelled from the spec: [Diagram.ID] is missing from the sources; the
    identity is "a deterministic content fingerprint derived from
    description (and implicitly imageType)" and fails when the description
    cannot be fingerprinted. *)
Definition ID (d : Diagram) : result string :=
  fingerprint (description d) (imgType d).

(** Modelled from the spec: [Diagram.Touch] is missing from the sources;
    it "advances lastTouched to the current time". *)
Definition Touch (d : Diagram) : prog Diagram :=
  t <- call Now;;
  Ret (set_lastTouched d t).

(** Modelled from the spec: [Diagram.TouchedInDuration] is missing from
    the sources; it tells "whether lastTouched falls within
    retentionDuration of the current time".  The instant exactly
    [duration] after the touch is not settled by the spec; here it counts
    as outside. *)
Definition TouchedInDuration (d : Diagram) (duration : Z) : prog bool :=
  now <- call Now;;
  Ret (now <? lastTouched d + duration).

(** ** File names *)

(** The mode [0644] given to [ioutil.WriteFile]. *)
Definition perm0644 : Z := 0x1a4.

(** [fmt.Sprintf("%s/%s.mmd", c.inPath, id)] *)
Definition inputPath (c : cachingGenerator) (id : string) : string :=
  inPath c +:+ "/" +:+ id +:+ ".mmd".

(** [fmt.Sprintf("%s/%s.%s", c.outPath, id, diagram.imgType)] in [generate] *)
Definition generateOutPath (c : cachingGenerator) (id ty : string) : string :=
  outPath c +:+ "/" +:+ id +:+ "." +:+ ty.

(** [fmt.Sprintf("%s/%s.svg", c.outPath, id)] in [delete] *)
Definition deleteOutPath (c : cachingGenerator) (id : string) : string :=
  outPath c +:+ "/" +:+ id +:+ ".svg".

(** The argument vector handed to [exec.Command]. *)
Definition mermaidArgs (c : cachingGenerator) (inFile outFile : string) : list string :=
  let args := ["-i"; inFile; "-o"; outFile] in
  if decide (puppeteerConfigPath c ≠ "")
  then args ++ ["-p"; puppeteerConfigPath c]
  else args.

(** ** generate *)

Definition generate (c : cachingGenerator) (diagram : Diagram)
  : prog (Diagram * option error) :=
  match ID diagram with
  | Err err => Ret (diagram, Some (Errorf "cannot get diagram ID: %w" [] err))
  | Ok id =>
    let inFile := inputPath c id in
    let outFile := generateOutPath c id (imgType diagram) in
    werr <- call (WriteFile inFile (description diagram) perm0644);;
    match werr with
    | Some err =>
        Ret (diagram,
             Some (Errorf "could not write to input file [%s]: %w" [inFile] err))
    | None =>
      serr <- call (Stat (mermaidCLIPath c));;
      match serr with
      | Some err =>
          if IsNotExist err
          then Ret (diagram, Some (Errorf "mermaid executable does not exist: %w" [] err))
          else Ret (diagram, Some (Errorf "could not stat mermaid executable: %w" [] err))
      | None =>
        let args := mermaidArgs c inFile outFile in
        ran <- call (Run (mermaidCLIPath c) args);;
        let '(rerr, stdOut, stdErr) := ran in
        match rerr with
        | Some err =>
            Ret (diagram,
                 Some (Errorf "failed when executing mermaid: %w: %s: %s"
                              [stdOut; stdErr] err))
        | None =>
            call (Printf ("Generated: " +:+ id +:+ ": " +:+ stdOut +:+ ": " +:+ stdErr));;
            Ret (set_Output diagram outFile, None)
        end
      end
    end
  end.

(** ** Generate *)

Definition Generate (c : cachingGenerator) (diagram : Diagram)
  : prog (Diagram * option error) :=
  has <- call (CacheHas diagram);;
  match has with
  | Err err => Ret (diagram, Some (Errorf "cache.Has failed: %w" [] err))
  | Ok true =>
    got <- call (CacheGet diagram);;
    match got with
    | Err err => Ret (diagram, Some (Errorf "cache.Get failed: %w" [] err))
    | Ok cached =>
      (* *diagram = *cached *)
      diagram <- Touch cached;;
      serr <- call (CacheStore diagram);;
      match serr with
      | Some err => Ret (diagram, Some (Errorf "cache.Store failed: %w" [] err))
      | None => Ret (diagram, None)
      end
    end
  | Ok false =>
    diagram <- Touch diagram;;
    generated <- generate c diagram;;
    let '(diagram, gerr) := generated in
    match gerr with
    | Some err =>
        Ret (diagram, Some (Errorf "cachingGenerater.generate failed: %w" [] err))
    | None =>
      serr <- call (CacheStore diagram);;
      match serr with
      | Some err => Ret (diagram, Some (Errorf "cache.Store failed: %w" [] err))
      | None => Ret (diagram, None)
      end
    end
  end.

(** ** delete and CleanUp *)

Definition delete (c : cachingGenerator) (diagram : Diagram) : prog (option error) :=
  match ID diagram with
  | Err err => Ret (Some (Errorf "cannot get diagram ID: %w" [] err))
  | Ok id =>
    call (Printf ("Cleaning up diagram: " +:+ id));;
    let inFile := inputPath c id in
    let outFile := deleteOutPath c id in
    r <- call (Remove inFile);;
    match r with
    | Some err => Ret (Some (Errorf "could not delete diagram input: %w" [] err))
    | None =>
      r <- call (Remove outFile);;
      match r with
      | Some err => Ret (Some (Errorf "could not delete diagram output: %w" [] err))
      | None =>
        r <- call (CacheDelete diagram);;
        match r with
        | Some err => Ret (Some (Errorf "could not remove diagram from cache: %w" [] err))
        | None => Ret None
        end
      end
    end
  end.

(** The body of [for _, d := range diagrams] in [CleanUp]. *)
Fixpoint sweep (c : cachingGenerator) (duration : Z) (diagrams : list Diagram)
  : prog (option error) :=
  match diagrams with
  | [] => Ret None
  | d :: rest =>
    touched <- TouchedInDuration d duration;;
    if negb touched then
      r <- delete c d;;
      match r with
      | Some err => Ret (Some (Errorf "could not delete diagram: %w" [] err))
      | None => sweep c duration rest
      end
    else sweep c duration rest
  end.

Definition CleanUp (c : cachingGenerator) (duration : Z) : prog (option error) :=
  call (Printf "Running cleanup");;
  all <- call CacheGetAll;;
  match all with
  | Err err => Ret (Some (Errorf "could not get cached diagrams: %w" [] err))
  | Ok diagrams => sweep c duration diagrams
  end.

End Generator.

Arguments ID fingerprint d /.

(** ** Reading a trace *)

Definition is_cache_write (e : event) : bool :=
  match e with
  | CacheStore _ | CacheDelete _ => true
  | _ => false
  end.

Definition is_store (e : event) : bool :=
  match e with
  | CacheStore _ => true
  | _ => false
  end.

(** Writing, probing or removing a file, or starting the backend. *)
Definition is_render_or_file (e : event) : bool :=
  match e with
  | WriteFile _ _ _ | Stat _ | Run _ _ | Remove _ => true
  | _ => false
  end.

Definition is_file_write (e : event) : bool :=
  match e with
  | WriteFile _ _ _ | Run _ _ | Remove _ => true
  | _ => false
  end.

(** The instant a [time.Now] call answered with, if the call is one. *)
Definition clock_reading (a : answered) : option Z :=
  match a with
  | Call Now t => Some t
  | _ => None
  end.

Definition events (tr : list answered) : list event := map call_event tr.

(** ** A reference host

    An environment to run the generator in: an in-memory cache that keeps
    its records in insertion order under their identity, a file system that
    maps paths to contents, a clock, and a stand-in for the mermaid program
    that "renders" by copying a non-empty input file to the output path. *)
Module Host.

Record World : Type := mkWorld {
  cache : list (string * Diagram);
  files : gmap string (list byte);
  clock : Z;
  tick : Z;
}.

Definition with_cache (w : World) (l : list (string * Diagram)) : World :=
  {| cache := l; files := files w; clock := clock w; tick := tick w |}.
Definition with_files (w : World) (fs : gmap string (list byte)) : World :=
  {| cache := cache w; files := fs; clock := clock w; tick := tick w |}.
Definition advance (w : World) : World :=
  {| cache := cache w; files := files w; clock := clock w + tick w; tick := tick w |}.

Fixpoint find_id (id : string) (l : list (string * Diagram)) : option Diagram :=
  match l with
  | [] => None
  | (k, d) :: rest => if decide (k = id) then Some d else find_id id rest
  end.

Fixpoint upsert (id : string) (d : Diagram) (l : list (string * Diagram))
  : list (string * Diagram) :=
  match l with
  | [] => [(id, d)]
  | (k, d0) :: rest =>
      if decide (k = id) then (id, d) :: rest else (k, d0) :: upsert id d rest
  end.

Fixpoint remove_id (id : string) (l : list (string * Diagram))
  : list (string * Diagram) :=
  match l with
  | [] => []
  | (k, d0) :: rest =>
      if decide (k = id) then rest else (k, d0) :: remove_id id rest
  end.

Definition exit1 : error := OtherError "exit status 1".

(** The stand-in for the mermaid program. *)
Definition mmdc (args : list string) (fs : gmap string (list byte))
  : (option error * string * string) * gmap string (list byte) :=
  match args with
  | flag_i :: i :: flag_o :: o :: _ =>
      if decide (flag_i = "-i" ∧ flag_o = "-o") then
        match fs !! i with
        | Some (b :: src) => ((None, "", ""), <[o := b :: src]> fs)
        | _ => ((Some exit1, "", "no diagram"), fs)
        end
      else ((Some exit1, "", "usage"), fs)
  | _ => ((Some exit1, "", "usage"), fs)
  end.

Section Handle.
Variable fingerprint : list byte → string → result string.

Definition handle (e : event) (w : World) : resp e * World :=
  match e as e0 return resp e0 * World with
  | CacheHas d =>
      match ID fingerprint d with
      | Err err => (Err err, w)
      | Ok id => (Ok (bool_decide (is_Some (find_id id (cache w)))), w)
      end
  | CacheGet d =>
      match ID fingerprint d with
      | Err err => (Err err, w)
      | Ok id =>
          match find_id id (cache w) with
          | Some d0 => (Ok d0, w)
          | None => (Err (OtherError "diagram not found"), w)
          end
      end
  | CacheStore d =>
      match ID fingerprint d with
      | Err err => (Some err, w)
      | Ok id => (None, with_cache w (upsert id d (cache w)))
      end
  | CacheGetAll => (Ok (map snd (cache w)), w)
  | CacheDelete d =>
      match ID fingerprint d with
      | Err err => (Some err, w)
      | Ok id =>
          match find_id id (cache w) with
          | Some _ => (None, with_cache w (remove_id id (cache w)))
          | None => (Some (OtherError "diagram not found"), w)
          end
      end
  | WriteFile path data _ => (None, with_files w (<[path := data]> (files w)))
  | Stat path =>
      match files w !! path with
      | Some _ => (None, w)
      | None => (Some (PathError "stat" path true), w)
      end
  | Run name args =>
      match files w !! name with
      | Some _ => let '(r, fs) := mmdc args (files w) in (r, with_files w fs)
      | None => ((Some (PathError "fork/exec" name true), "", ""), w)
      end
  | Remove path =>
      match files w !! path with
      | Some _ => (None, with_files w (base.delete path (files w)))
      | None => (Some (PathError "remove" path true), w)
      end
  | Now => (clock w, advance w)
  | Printf _ => (tt, w)
  end.

(** The records of the cache, by identity. *)
Definition records (w : World) : gmap string Diagram := list_to_map (cache w).
End Handle.

End Host.

(** A stateless environment that answers every call from a fixed table, as
    a test double would. *)
Definition scripted (answer : ∀ e : event, resp e) (e : event) (w : unit)
  : resp e * unit := (answer e, w).

(** A fingerprint to run examples with: the description read as text; an
    empty description has no fingerprint. *)
Definition plainFingerprint (desc : list byte) (ty : string) : result string :=
  match desc with
  | [] => Err (OtherError "empty description")
  | _ => Ok (Stdlib.Strings.String.string_of_list_byte desc)
  end.

Definition demoGenerator : cachingGenerator :=
  {| mermaidCLIPath := "/bin/mmdc"; inPath := "in"; outPath := "out";
     puppeteerConfigPath := "" |}.

Definition demoDiagram (text ty : string) (touched : Z) : Diagram :=
  {| description := Stdlib.Strings.String.list_byte_of_string text; imgType := ty;
     Output := ""; lastTouched := touched |}.

(** ** Example worlds *)

(** A diagram stored earlier, rendered to out/a.svg and touched at 100. *)
Definition cachedA : Diagram :=
  {| description := Stdlib.Strings.String.list_byte_of_string "a"; imgType := "svg";
     Output := "out/a.svg"; lastTouched := 100 |}.

(** A host with nothing cached and no mermaid executable installed. *)
Definition bareHost : Host.World :=
  {| Host.cache := []; Host.files := ∅; Host.clock := 500; Host.tick := 1 |}.

(** The caller's diagram for the description "a", not touched yet. *)
Definition diagramA : Diagram := demoDiagram "a" "svg" 0.

(** [bareHost] after the clock was read once and in/a.mmd was written. *)
Definition bareHostWithInput : Host.World :=
  Host.with_files (Host.advance bareHost) {[ "in/a.mmd" := description diagramA ]}.

(** What [os.Stat] answers when /bin/mmdc does not exist. *)
Definition noMmdc : error := PathError "stat" "/bin/mmdc" true.

(** A host that has [cachedA] in its cache. *)
Definition warmHost : Host.World :=
  {| Host.cache := [("a", cachedA)];
     Host.files := {[ "/bin/mmdc" := []; "in/a.mmd" := description cachedA;
                      "out/a.svg" := description cachedA ]};
     Host.clock := 500; Host.tick := 1 |}.

(** A cache that finds [cachedA] but cannot store. *)
Definition readOnlyCache (e : event) : resp e :=
  match e as e0 return resp e0 with
  | CacheHas _ => Ok true
  | CacheGet _ => Ok cachedA
  | CacheStore _ => Some (OtherError "read-only store")
  | CacheGetAll => Ok [cachedA]
  | CacheDelete _ => Some (OtherError "read-only store")
  | WriteFile _ _ _ => None
  | Stat _ => None
  | Run _ _ => (None, "", "")
  | Remove _ => None
  | Now => 500
  | Printf _ => tt
  end.

(** ** Reading the trace of a sweep *)

(** Every clock reading of the trace lies between [lo] and [hi]. *)
Definition clock_within (lo hi : Z) (tr : list answered) : Prop :=
  Forall (λ a, ∀ t, clock_reading a = Some t → lo ≤ t ≤ hi) tr.

(** The record [d] of identity [id] is left alone by the calls of [tr]: no
    record is stored, the cache is not asked to delete [d], and neither the
    input path nor the .svg output path of [id] is removed. *)
Definition retained_in (c : cachingGenerator) (d : Diagram) (id : string)
    (tr : list answered) : Prop :=
  Forall (λ a, is_store (call_event a) = false
               ∧ call_event a ≠ CacheDelete d
               ∧ call_event a ≠ Remove (inputPath c id)
               ∧ call_event a ≠ Remove (deleteOutPath c id)) tr.

(** At every clock reading [t] of [tr] the record [d] was touched at
    [t - duration + ε] for some positive [ε]. *)
Definition fresh_at_every_reading (duration : Z) (d : Diagram)
    (tr : list answered) : Prop :=
  Forall (λ a, ∀ t, clock_reading a = Some t →
                 ∃ ε, 0 < ε ∧ lastTouched d = t - duration + ε) tr.

Definition cachedB : Diagram :=
  {| description := Stdlib.Strings.String.list_byte_of_string "b"; imgType := "svg";
     Output := "out/b.svg"; lastTouched := 100 |}.

Definition cachedC : Diagram :=
  {| description := Stdlib.Strings.String.list_byte_of_string "c"; imgType := "svg";
     Output := "out/c.svg"; lastTouched := 490 |}.

(** Two records last touched at 100; the files of "a" are already gone, those
    of "b" are in place. *)
Definition staleHost : Host.World :=
  {| Host.cache := [("a", cachedA); ("b", cachedB)];
     Host.files := {[ "in/b.mmd" := description cachedB;
                      "out/b.svg" := description cachedB ]};
     Host.clock := 500; Host.tick := 0 |}.

(** One record last touched at 100 whose files are gone. *)
Definition orphanHost : Host.World :=
  {| Host.cache := [("a", cachedA)]; Host.files := ∅;
     Host.clock := 500; Host.tick := 0 |}.

(** A record last touched at 100 and one last touched at 490, both with
    their files. *)
Definition tidyHost : Host.World :=
  {| Host.cache := [("b", cachedB); ("c", cachedC)];
     Host.files := {[ "in/b.mmd" := description cachedB;
                      "out/b.svg" := description cachedB;
                      "in/c.mmd" := description cachedC;
                      "out/c.svg" := description cachedC ]};
     Host.clock := 500; Host.tick := 1 |}.

(** A third record last touched at 100. *)
Definition cachedE : Diagram :=
  {| description := Stdlib.Strings.String.list_byte_of_string "e"; imgType := "svg";
     Output := "out/e.svg"; lastTouched := 100 |}.

(** Three records last touched at 100, enumerated "b", "a", "e"; the files
    of "a" are gone, those of "b" and "e" are in place. *)
Definition blockedHost : Host.World :=
  {| Host.cache := [("b", cachedB); ("a", cachedA); ("e", cachedE)];
     Host.files := {[ "in/b.mmd" := description cachedB;
                      "out/b.svg" := description cachedB;
                      "in/e.mmd" := description cachedE;
                      "out/e.svg" := description cachedE ]};
     Host.clock := 500; Host.tick := 1 |}.

(** A record whose input file exists and whose output file does not. *)
Definition halfHost : Host.World :=
  {| Host.cache := [("a", cachedA)];
     Host.files := {[ "in/a.mmd" := description cachedA ]};
     Host.clock := 500; Host.tick := 0 |}.

(** A host with the mermaid stand-in installed and nothing cached. *)
Definition readyHost : Host.World :=
  {| Host.cache := []; Host.files := {[ "/bin/mmdc" := [] ]};
     Host.clock := 500; Host.tick := 1 |}.

(** A generator with a puppeteer configuration. *)
Definition sandboxedGenerator : cachingGenerator :=
  {| mermaidCLIPath := "/bin/mmdc"; inPath := "in"; outPath := "out";
     puppeteerConfigPath := "pptr.json" |}.

Definition staleSweep : option error * Host.World * list answered :=
  run (Host.handle plainFingerprint) (CleanUp plainFingerprint demoGenerator 24) staleHost.

Definition orphanSweep : option error * Host.World * list answered :=
  run (Host.handle plainFingerprint) (CleanUp plainFingerprint demoGenerator 24) orphanHost.

Definition blockedSweep : option error * Host.World * list answered :=
  run (Host.handle plainFingerprint) (CleanUp plainFingerprint demoGenerator 24) blockedHost.

Definition tidySweep : option error * Host.World * list answered :=
  run (Host.handle plainFingerprint) (CleanUp plainFingerprint demoGenerator 24) tidyHost.

(** ** The constructor *)

(** [NewGenerator]; its [cache] argument is the environment that [run]
    takes. *)
Definition NewGenerator (mermaidCLIPath inPath outPath puppeteerConfigPath : string)
  : cachingGenerator :=
  {| mermaidCLIPath := mermaidCLIPath;
     inPath := inPath;
     outPath := outPath;
     puppeteerConfigPath := puppeteerConfigPath |}.

(** ** Failed calls *)

(** The error a call was answered with, if it was. *)
Definition answer_error (a : answered) : option error :=
  match a with
  | Call e r =>
      match e return resp e → option error with
      | CacheHas _ => λ r, match r with Err err => Some err | Ok _ => None end
      | CacheGet _ => λ r, match r with Err err => Some err | Ok _ => None end
      | CacheStore _ => λ r, r
      | CacheGetAll => λ r, match r with Err err => Some err | Ok _ => None end
      | CacheDelete _ => λ r, r
      | WriteFile _ _ _ => λ r, r
      | Stat _ => λ r, r
      | Run _ _ => λ r, r.1.1
      | Remove _ => λ r, r
      | Now => λ _, None
      | Printf _ => λ _, None
      end r
  end.

Definition answer_failed (a : answered) : bool :=
  match answer_error a with
  | Some _ => true
  | None => false
  end.

(** No call but the last one failed. *)
Fixpoint fail_fast (tr : list answered) : bool :=
  match tr with
  | [] => true
  | a :: rest =>
      match rest with
      | [] => true
      | _ => negb (answer_failed a) && fail_fast rest
      end
  end.

(** The records the cache was asked to delete and the paths the file system
    was asked to remove, in call order. *)
Definition delete_requests (tr : list answered) : list Diagram :=
  omap (λ a, match call_event a with CacheDelete d => Some d | _ => None end) tr.

Definition remove_requests (tr : list answered) : list string :=
  omap (λ a, match call_event a with Remove path => Some path | _ => None end) tr.

(** The calls a sweep may make. *)
Definition is_sweep_event (e : event) : bool :=
  match e with
  | Printf _ | CacheGetAll | Now | Remove _ | CacheDelete _ => true
  | _ => false
  end.

(** ** Kinds of calls *)

(** A call without its arguments. *)
Inductive call_kind : Type :=
| KHas | KGet | KStore | KGetAll | KDelete
| KWriteFile | KStat | KRun | KRemove | KNow | KPrintf.

Definition kind_of (e : event) : call_kind :=
  match e with
  | CacheHas _ => KHas
  | CacheGet _ => KGet
  | CacheStore _ => KStore
  | CacheGetAll => KGetAll
  | CacheDelete _ => KDelete
  | WriteFile _ _ _ => KWriteFile
  | Stat _ => KStat
  | Run _ _ => KRun
  | Remove _ => KRemove
  | Now => KNow
  | Printf _ => KPrintf
  end.

Definition kinds (tr : list answered) : list call_kind :=
  map (λ a, kind_of (call_event a)) tr.

(** ** More example worlds *)

(** A cache that reports a hit but can neither read nor enumerate. *)
Definition unreadableCache (e : event) : resp e :=
  match e as e0 return resp e0 with
  | CacheHas _ => Ok true
  | CacheGet _ => Err (OtherError "unreadable")
  | CacheStore _ => None
  | CacheGetAll => Err (OtherError "unreadable")
  | CacheDelete _ => None
  | WriteFile _ _ _ => None
  | Stat _ => None
  | Run _ _ => (None, "", "")
  | Remove _ => None
  | Now => 500
  | Printf _ => tt
  end.

(** A host whose only record was touched at 490. *)
Definition freshHost : Host.World :=
  {| Host.cache := [("c", cachedC)];
     Host.files := {[ "in/c.mmd" := description cachedC;
                      "out/c.svg" := description cachedC ]};
     Host.clock := 500; Host.tick := 1 |}.

(** The first [Generate] of "a" on [readyHost], and a [CleanUp] of
    [freshHost]. *)
Definition readyRun : Diagram * option error * Host.World * list answered :=
  run (Host.handle plainFingerprint) (Generate plainFingerprint demoGenerator diagramA)
      readyHost.

Definition freshSweep : option error * Host.World * list answered :=
  run (Host.handle plainFingerprint) (CleanUp plainFingerprint demoGenerator 24) freshHost.

(** A png diagram for the description "a", the same diagram once rendered,
    and [readyHost] after that rendering. *)
Definition pngDiagram : Diagram := demoDiagram "a" "png" 0.

Definition pngRendered : Diagram := set_Output pngDiagram "out/a.png".

Definition pngWorld : Host.World :=
  (run (Host.handle plainFingerprint)
       (generate plainFingerprint demoGenerator pngDiagram) readyHost).1.2.

(** ** Which step an error comes from *)

Section ErrorOrigins.
Variable fingerprint : list byte → string → result string.

(** [gerr] is the error [generate] reports for the diagram [d] when the
    calls made so far are [tr]: either [d] has no identity, or the last call
    of [tr] is the WriteFile, Stat or Run that failed, and [gerr] wraps the
    error that call was answered with under the message of that step. *)
Definition generate_error_at (c : cachingGenerator) (d : Diagram)
    (tr : list answered) (gerr : error) : Prop :=
  (∃ cause,
      ID fingerprint d = Err cause
      ∧ gerr = Errorf "cannot get diagram ID: %w" [] cause)
  ∨ (∃ id cause,
        ID fingerprint d = Ok id
        ∧ last tr = Some (Call (WriteFile (inputPath c id) (description d) perm0644)
                               (Some cause))
        ∧ gerr = Errorf "could not write to input file [%s]: %w" [inputPath c id] cause)
  ∨ (∃ cause,
        last tr = Some (Call (Stat (mermaidCLIPath c)) (Some cause))
        ∧ IsNotExist cause = true
        ∧ gerr = Errorf "mermaid executable does not exist: %w" [] cause)
  ∨ (∃ cause,
        last tr = Some (Call (Stat (mermaidCLIPath c)) (Some cause))
        ∧ IsNotExist cause = false
        ∧ gerr = Errorf "could not stat mermaid executable: %w" [] cause)
  ∨ (∃ args cause stdOut stdErr,
        last tr = Some (Call (Run (mermaidCLIPath c) args) (Some cause, stdOut, stdErr))
        ∧ gerr = Errorf "failed when executing mermaid: %w: %s: %s"
                   [stdOut; stdErr] cause).

(** [derr] is the error [delete] reports for the record [d] when the calls
    made so far are [tr]: either [d] has no identity, or the last call of
    [tr] is the removal of the input path, of the .svg output path or of the
    cache record of [d] that failed, and [derr] wraps the error that call
    was answered with under the message of that step. *)
Definition delete_error_at (c : cachingGenerator) (d : Diagram)
    (tr : list answered) (derr : error) : Prop :=
  (∃ cause,
      ID fingerprint d = Err cause
      ∧ derr = Errorf "cannot get diagram ID: %w" [] cause)
  ∨ (∃ id cause,
        ID fingerprint d = Ok id
        ∧ last tr = Some (Call (Remove (inputPath c id)) (Some cause))
        ∧ derr = Errorf "could not delete diagram input: %w" [] cause)
  ∨ (∃ id cause,
        ID fingerprint d = Ok id
        ∧ last tr = Some (Call (Remove (deleteOutPath c id)) (Some cause))
        ∧ derr = Errorf "could not delete diagram output: %w" [] cause)
  ∨ (∃ cause,
        last tr = Some (Call (CacheDelete d) (Some cause))
        ∧ derr = Errorf "could not remove diagram from cache: %w" [] cause).
End ErrorOrigins.

(** The failed [Generate] of "a" on [bareHost]. *)
Definition bareRun : Diagram * option error * Host.World * list answered :=
  run (Host.handle plainFingerprint) (Generate plainFingerprint demoGenerator diagramA)
      bareHost.

Definition bareError : error :=
  Errorf "cachingGenerater.generate failed: %w" []
    (Errorf "mermaid executable does not exist: %w" [] noMmdc).

(** The error of the sweep of [staleHost]. *)
Definition staleError : error :=
  Errorf "could not delete diagram: %w" []
    (Errorf "could not delete diagram input: %w" []
       (PathError "remove" "in/a.mmd" true)).

(** * Properties

    From here on: the laws of [run], what each operation does under an
    arbitrary environment, and the theorems about [Generate], [CleanUp] and
    [delete], each followed by a run on the reference host. *)

(** ** Laws of [run] *)

Section RunLaws.
Context {W : Type} (handle : ∀ e : event, W → resp e * W).

Lemma run_Vis {A} (e : event) (k : resp e → prog A) (w : W) :
  run handle (Vis e k) w =
    let '(r, w1) := handle e w in
    let '(a, w2, tr) := run handle (k r) w1 in
    (a, w2, Call e r :: tr).
Proof. reflexivity. Qed.

Lemma run_bind {A B} (p : prog A) (f : A → prog B) (w : W) :
  run handle (bind p f) w =
    let '(a, w1, tr1) := run handle p w in
    let '(b, w2, tr2) := run handle (f a) w1 in
    (b, w2, tr1 ++ tr2).
Proof.
  revert w. induction p as [a | e k IH]; intros w; simpl.
  - destruct (run handle (f a) w) as [[b w2] tr2]. reflexivity.
  - destruct (handle e w) as [r w1]. rewrite IH.
    destruct (run handle (k r) w1) as [[a w2] tr1].
    destruct (run handle (f a) w2) as [[b w3] tr2]. reflexivity.
Qed.

(** A view of the world that the events of a run do not disturb is the
    same before and after the run. *)
Lemma run_frame {V A} (view : W → V) (quiet : event → bool)
    (Hframe : ∀ e w, quiet e = true → view (handle e w).2 = view w)
    (p : prog A) (w : W) :
  Forall (λ a, quiet (call_event a) = true) (run handle p w).2 →
  view (run handle p w).1.2 = view w.
Proof.
  revert w. induction p as [a | e k IH]; intros w; simpl; [done |].
  specialize (Hframe e w).
  destruct (handle e w) as [r w1]. specialize (IH r w1).
  destruct (run handle (k r) w1) as [[a w2] tr]. simpl in *.
  intros Hall. apply Forall_cons in Hall as [Hq Htr].
  rewrite IH, Hframe; done.
Qed.
End RunLaws.

(** Unfolds one collaborator call of a run, naming its answer. *)
Ltac run_step :=
  match goal with
  | |- context [ run ?h (Vis ?e _) ?w ] =>
      rewrite (run_Vis h e _ w);
      let r := fresh "r" in let w' := fresh "w" in let E := fresh "E" in
      destruct (h e w) as [r w'] eqn:E; cbn [fst snd] in *
  | H : context [ run ?h (Vis ?e _) ?w ] |- _ =>
      rewrite (run_Vis h e _ w) in H;
      let r := fresh "r" in let w' := fresh "w" in let E := fresh "E" in
      destruct (h e w) as [r w'] eqn:E; cbn [fst snd] in *
  end.

(** Runs a program to its end, splitting on every answer it inspects. *)
Ltac run_all :=
  repeat first
    [ run_step
    | progress cbn -[run inputPath generateOutPath deleteOutPath mermaidArgs]
    | match goal with
      | |- context [run _ (match ?x with _ => _ end) _] => destruct x eqn:?
      | |- context [bind (match ?x with _ => _ end) _] => destruct x eqn:?
      end ].

(** Finds the case of a disjunction of existentials that holds by
    computation. *)
Ltac pick_case :=
  first
    [ reflexivity
    | assumption
    | split; [pick_case | pick_case]
    | eexists; pick_case
    | left; pick_case
    | right; pick_case ].

(** ** The reference host keeps its contracts *)

Section HostFacts.
Variable fingerprint : list byte → string → result string.

(** Only Store and Delete change the records of the cache. *)
Lemma Host_handle_cache_frame (e : event) (w : Host.World) :
  is_cache_write e = false →
  Host.records (Host.handle fingerprint e w).2 = Host.records w.
Proof.
  destruct e; simpl; try done; intros _;
    repeat case_match; simplify_eq; done.
Qed.

(** Only WriteFile, Run and Remove change the files. *)
Lemma Host_handle_read_frame (e : event) (w : Host.World) :
  is_file_write e = false →
  Host.files (Host.handle fingerprint e w).2 = Host.files w.
Proof.
  destruct e; simpl; try done; intros _;
    repeat case_match; simplify_eq; done.
Qed.

(** A file that was written is there with the bytes written. *)
Lemma Host_handle_write_ok (path : string) (data : list byte) (perm : Z)
    (w : Host.World) :
  (Host.handle fingerprint (WriteFile path data perm) w).1 = None →
  Host.files (Host.handle fingerprint (WriteFile path data perm) w).2 !! path
    = Some data.
Proof. intros _. simpl. apply lookup_insert_eq. Qed.
End HostFacts.

(** ** File names are told apart by their endings *)

Section StringFacts.

Lemma string_app_cons (a : Ascii.ascii) (s t : string) :
  String a s +:+ t = String a (s +:+ t).
Proof. reflexivity. Qed.

Lemma string_app_length (s t : string) :
  String.length (s +:+ t) = (String.length s + String.length t)%nat.
Proof.
  induction s as [| a s IH]; [done |].
  rewrite string_app_cons. simpl. by rewrite IH.
Qed.

Lemma string_app_assoc (s1 s2 s3 : string) :
  (s1 +:+ s2) +:+ s3 = s1 +:+ (s2 +:+ s3).
Proof.
  induction s1 as [| a s1 IH]; [done |].
  rewrite !string_app_cons. by rewrite IH.
Qed.

(** Two strings that end in suffixes of the same length agree on the part
    before the suffix and on the suffix. *)
Lemma string_app_suffix (s1 s2 t1 t2 : string) :
  String.length t1 = String.length t2 →
  s1 +:+ t1 = s2 +:+ t2 → s1 = s2 ∧ t1 = t2.
Proof.
  intros Hlen. revert s2.
  induction s1 as [| a s1 IH]; intros [| b s2] Heq.
  - done.
  - exfalso. change ("" +:+ t1) with t1 in Heq. subst t1.
    rewrite string_app_length in Hlen. simpl in Hlen. lia.
  - exfalso. change ("" +:+ t2) with t2 in Heq. subst t2.
    rewrite string_app_length in Hlen. simpl in Hlen. lia.
  - rewrite !string_app_cons in Heq. injection Heq as -> Heq.
    destruct (IH _ Heq) as [-> ->]. done.
Qed.

Lemma inputPath_inj (c : cachingGenerator) (id1 id2 : string) :
  inputPath c id1 = inputPath c id2 → id1 = id2.
Proof.
  unfold inputPath. intros Heq. do 2 apply String.app_inj in Heq.
  by apply string_app_suffix in Heq as [-> _].
Qed.

Lemma deleteOutPath_inj (c : cachingGenerator) (id1 id2 : string) :
  deleteOutPath c id1 = deleteOutPath c id2 → id1 = id2.
Proof.
  unfold deleteOutPath. intros Heq. do 2 apply String.app_inj in Heq.
  by apply string_app_suffix in Heq as [-> _].
Qed.

Lemma inputPath_ne_deleteOutPath (c : cachingGenerator) (id1 id2 : string) :
  inputPath c id1 ≠ deleteOutPath c id2.
Proof.
  unfold inputPath, deleteOutPath. intros Heq.
  rewrite <- !(string_app_assoc _ "/"), <- !string_app_assoc in Heq.
  by apply string_app_suffix in Heq as [_ [=]].
Qed.
End StringFacts.

(** ** What [generate] does, under any environment *)

Section GenerateFacts.
Context {W : Type} (handle : ∀ e : event, W → resp e * W).
Variable fingerprint : list byte → string → result string.

(** [generate] never calls the cache. *)
Lemma generate_calls_no_cache (c : cachingGenerator) (d : Diagram) (w : W) :
  Forall (λ a, is_cache_write (call_event a) = false)
         (run handle (generate fingerprint c d) w).2.
Proof.
  unfold generate. destruct (ID fingerprint d) as [id | err]; [| by constructor].
  cbn -[run]. run_step. destruct r as [err |]; [by repeat constructor |].
  run_step. destruct r as [err |].
  { destruct (IsNotExist err); by repeat constructor. }
  run_step. destruct r as [[[err |] stdOut] stdErr]; [by repeat constructor |].
  cbn -[run]. run_step. by repeat constructor.
Qed.

(** A failed [generate] leaves the diagram as it received it: [Output] is
    assigned on the last line only. *)
Lemma generate_error_keeps_diagram (c : cachingGenerator) (d d' : Diagram)
    (w w' : W) (err : error) (tr : list answered) :
  run handle (generate fingerprint c d) w = ((d', Some err), w', tr) → d' = d.
Proof.
  unfold generate. destruct (ID fingerprint d) as [id | e0]; [| by intros [= <-]].
  cbn -[run]. run_step. destruct r as [e1 |]; [by intros [= <-] |].
  run_step. destruct r as [e2 |].
  { destruct (IsNotExist e2); by intros [= <-]. }
  run_step. destruct r as [[[e3 |] stdOut] stdErr]; [by intros [= <-] |].
  cbn -[run]. run_step. intros [=].
Qed.
End GenerateFacts.

(** Replaces the next collaborator call of a run by its known answer. *)
Ltac run_with H :=
  rewrite run_Vis, H;
  cbn -[run generate delete sweep mermaidArgs inputPath generateOutPath deleteOutPath].

(** ** Generate *)

Section GenerateClaims.
Context {W : Type} (handle : ∀ e : event, W → resp e * W).
Variable fingerprint : list byte → string → result string.

Lemma not_cache_write_not_store (tr : list answered) :
  Forall (λ a, is_cache_write (call_event a) = false) tr →
  Forall (λ a, is_store (call_event a) = false) tr.
Proof.
  intros Hall. eapply Forall_impl; [exact Hall |].
  intros [e r]; simpl. by destruct e.
Qed.

(** The three ways the render step fails, each with the error [generate]
    reports and the calls it made up to there. *)
Lemma generate_write_failure (c : cachingGenerator) (d : Diagram) (id : string)
    (w w1 : W) (err : error) :
  ID fingerprint d = Ok id →
  handle (WriteFile (inputPath c id) (description d) perm0644) w = (Some err, w1) →
  run handle (generate fingerprint c d) w =
    ((d, Some (Errorf "could not write to input file [%s]: %w" [inputPath c id] err)),
     w1,
     [Call (WriteFile (inputPath c id) (description d) perm0644) (Some err)]).
Proof.
  intros Hid Hw. unfold generate. rewrite Hid. cbn -[run]. by run_with Hw.
Qed.

Lemma generate_stat_failure (c : cachingGenerator) (d : Diagram) (id : string)
    (w w1 w2 : W) (err : error) :
  ID fingerprint d = Ok id →
  handle (WriteFile (inputPath c id) (description d) perm0644) w = (None, w1) →
  handle (Stat (mermaidCLIPath c)) w1 = (Some err, w2) →
  run handle (generate fingerprint c d) w =
    ((d, Some (Errorf (if IsNotExist err
                       then "mermaid executable does not exist: %w"
                       else "could not stat mermaid executable: %w") [] err)),
     w2,
     [Call (WriteFile (inputPath c id) (description d) perm0644) None;
      Call (Stat (mermaidCLIPath c)) (Some err)]).
Proof.
  intros Hid Hw Hs. unfold generate. rewrite Hid. cbn -[run].
  run_with Hw. run_with Hs. by destruct (IsNotExist err).
Qed.

Lemma generate_run_failure (c : cachingGenerator) (d : Diagram) (id : string)
    (w w1 w2 w3 : W) (err : error) (stdOut stdErr : string) :
  let args := mermaidArgs c (inputPath c id) (generateOutPath c id (imgType d)) in
  ID fingerprint d = Ok id →
  handle (WriteFile (inputPath c id) (description d) perm0644) w = (None, w1) →
  handle (Stat (mermaidCLIPath c)) w1 = (None, w2) →
  handle (Run (mermaidCLIPath c) args) w2 = ((Some err, stdOut, stdErr), w3) →
  run handle (generate fingerprint c d) w =
    ((d, Some (Errorf "failed when executing mermaid: %w: %s: %s" [stdOut; stdErr] err)),
     w3,
     [Call (WriteFile (inputPath c id) (description d) perm0644) None;
      Call (Stat (mermaidCLIPath c)) None;
      Call (Run (mermaidCLIPath c) args) (Some err, stdOut, stdErr)]).
Proof.
  intros args Hid Hw Hs Hr. subst args. unfold generate. rewrite Hid.
  cbn -[run mermaidArgs]. run_with Hw. run_with Hs. by run_with Hr.
Qed.

(** The miss path when the render step fails: what [Generate] returns and
    the calls it makes. *)
Lemma Generate_miss_render_failure (c : cachingGenerator) (d d' : Diagram)
    (w w1 w2 w3 : W) (t : Z) (gerr : error) (tr : list answered) :
  handle (CacheHas d) w = (Ok false, w1) →
  handle Now w1 = (t, w2) →
  run handle (generate fingerprint c (set_lastTouched d t)) w2
    = ((d', Some gerr), w3, tr) →
  run handle (Generate fingerprint c d) w =
    ((set_lastTouched d t,
      Some (Errorf "cachingGenerater.generate failed: %w" [] gerr)),
     w3,
     Call (CacheHas d) (Ok false) :: Call Now t :: tr).
Proof.
  intros Hhas Hnow Hgen.
  pose proof (generate_error_keeps_diagram _ _ _ _ _ _ _ _ _ Hgen) as ->.
  unfold Generate, Touch. cbn -[run generate].
  run_with Hhas. run_with Hnow.
  rewrite run_bind, Hgen. cbn. by rewrite app_nil_r.
Qed.
End GenerateClaims.

Section GenerateTheorems.
Context {W : Type} (handle : ∀ e : event, W → resp e * W).
Variable fingerprint : list byte → string → result string.

(** The cache store's view of its records and the file system's view of
    its files, for environments that have them. *)
Variable records : W → gmap string Diagram.
Variable files : W → gmap string (list byte).

(** C7: when the existence query [cache.Has] fails, [Generate] returns that
    error wrapped as "cache.Has failed", the caller's diagram is the one it
    passed in, and the query is the only call made to any collaborator:
    nothing is stored and no file is written. *)
Theorem Generate_Has_failure_no_effects (c : cachingGenerator) (d : Diagram)
    (w w1 : W) (err : error) :
  handle (CacheHas d) w = (Err err, w1) →
  run handle (Generate fingerprint c d) w =
    ((d, Some (Errorf "cache.Has failed: %w" [] err)),
     w1,
     [Call (CacheHas d) (Err err)]).
Proof.
  intros Hhas. unfold Generate. cbn -[run generate]. by run_with Hhas.
Qed.

(** C4: on a cache hit [Generate] makes no render or file call; when
    [cache.Get] hands back the record, the caller's diagram becomes that
    record with [lastTouched] set to the clock reading, this diagram is
    passed to [cache.Store], and the calls made are exactly Has, Get, Now
    and Store. *)
Theorem Generate_hit_touches_and_stores (c : cachingGenerator) (d : Diagram)
    (w w1 : W) :
  handle (CacheHas d) w = (Ok true, w1) →
  Forall (λ a, is_render_or_file (call_event a) = false)
         (run handle (Generate fingerprint c d) w).2
  ∧ ∀ (cached : Diagram) (w2 w3 w4 : W) (t : Z) (serr : option error),
      handle (CacheGet d) w1 = (Ok cached, w2) →
      handle Now w2 = (t, w3) →
      handle (CacheStore (set_lastTouched cached t)) w3 = (serr, w4) →
      run handle (Generate fingerprint c d) w =
        ((set_lastTouched cached t,
          Errorf "cache.Store failed: %w" [] <$> serr),
         w4,
         [Call (CacheHas d) (Ok true);
          Call (CacheGet d) (Ok cached);
          Call Now t;
          Call (CacheStore (set_lastTouched cached t)) serr]).
Proof.
  intros Hhas. split.
  - unfold Generate, Touch. cbn -[run generate]. run_with Hhas.
    run_step. destruct r as [cached | err]; [| by repeat constructor].
    cbn -[run]. run_step. run_step.
    destruct r0 as [err |]; by repeat constructor.
  - intros cached w2 w3 w4 t serr Hget Hnow Hstore.
    unfold Generate, Touch. cbn -[run generate].
    run_with Hhas. run_with Hget. run_with Hnow. run_with Hstore.
    by destruct serr.
Qed.

(** C9: an error return does not restore the caller's diagram.  On a hit
    whose [cache.Store] fails, the diagram returned to the caller is the
    cached record with the new [lastTouched]; on a miss whose render step
    fails, it is the caller's diagram with the new [lastTouched]. *)
Theorem Generate_error_keeps_mutation (c : cachingGenerator) (d : Diagram) (w : W) :
  (∀ (cached : Diagram) (w1 w2 w3 w4 : W) (t : Z) (err : error),
      handle (CacheHas d) w = (Ok true, w1) →
      handle (CacheGet d) w1 = (Ok cached, w2) →
      handle Now w2 = (t, w3) →
      handle (CacheStore (set_lastTouched cached t)) w3 = (Some err, w4) →
      (run handle (Generate fingerprint c d) w).1.1 =
        (set_lastTouched cached t, Some (Errorf "cache.Store failed: %w" [] err)))
  ∧ (∀ (d' : Diagram) (w1 w2 w3 : W) (t : Z) (gerr : error) (tr : list answered),
      handle (CacheHas d) w = (Ok false, w1) →
      handle Now w1 = (t, w2) →
      run handle (generate fingerprint c (set_lastTouched d t)) w2
        = ((d', Some gerr), w3, tr) →
      (run handle (Generate fingerprint c d) w).1.1 =
        (set_lastTouched d t,
         Some (Errorf "cachingGenerater.generate failed: %w" [] gerr))).
Proof.
  split.
  - intros cached w1 w2 w3 w4 t err Hhas Hget Hnow Hstore.
    unfold Generate, Touch. cbn -[run generate].
    run_with Hhas. run_with Hget. run_with Hnow. by run_with Hstore.
  - intros d' w1 w2 w3 t gerr tr Hhas Hnow Hgen.
    by rewrite (Generate_miss_render_failure _ _ _ _ _ _ _ _ _ _ _ _ Hhas Hnow Hgen).
Qed.

(** C3: on a miss whose render step fails, [Generate] returns the error
    wrapped as "cachingGenerater.generate failed", [cache.Store] is not
    among the calls made, and a cache whose records only change through
    Store and Delete holds the same records as before the call: none for
    this identity if there was none. *)
Theorem Generate_render_failure_stores_nothing
    (Hcache : ∀ e w, is_cache_write e = false → records (handle e w).2 = records w)
    (c : cachingGenerator) (d d' : Diagram) (w w1 w2 w3 : W) (t : Z)
    (gerr : error) (tr : list answered) :
  handle (CacheHas d) w = (Ok false, w1) →
  handle Now w1 = (t, w2) →
  run handle (generate fingerprint c (set_lastTouched d t)) w2
    = ((d', Some gerr), w3, tr) →
  ∃ tr',
    run handle (Generate fingerprint c d) w =
      ((set_lastTouched d t,
        Some (Errorf "cachingGenerater.generate failed: %w" [] gerr)), w3, tr')
    ∧ Forall (λ a, is_store (call_event a) = false) tr'
    ∧ records w3 = records w.
Proof.
  intros Hhas Hnow Hgen.
  pose proof (Generate_miss_render_failure _ _ _ _ _ _ _ _ _ _ _ _ Hhas Hnow Hgen) as Hrun.
  assert (Hquiet : Forall (λ a, is_cache_write (call_event a) = false)
                          (Call (CacheHas d) (Ok false) :: Call Now t :: tr)).
  { repeat (constructor; [done |]).
    pose proof (generate_calls_no_cache handle fingerprint c (set_lastTouched d t) w2) as H.
    by rewrite Hgen in H. }
  eexists. split; [exact Hrun |]. split.
  - by apply not_cache_write_not_store.
  - pose proof (run_frame handle records (λ e, negb (is_cache_write e))
                  (λ e w Hq, Hcache e w (proj1 (negb_true_iff _) Hq))
                  (Generate fingerprint c d) w) as Hf.
    rewrite Hrun in Hf. apply Hf.
    eapply Forall_impl; [exact Hquiet |]. intros a Ha; simpl. by rewrite Ha.
Qed.

(** C10: [generate] writes the description to <inPath>/<id>.mmd before it
    stats the mermaid executable.  When that executable does not exist,
    [Generate] fails after exactly the calls Has, Now, WriteFile, Stat: the
    input file is not removed again and nothing is stored, so on a file
    system that keeps what was written the input file is there with the
    description, and the cache records are what they were. *)
Theorem Generate_missing_backend_leaves_input
    (Hcache : ∀ e w, is_cache_write e = false → records (handle e w).2 = records w)
    (Hread : ∀ e w, is_file_write e = false → files (handle e w).2 = files w)
    (Hwrite : ∀ path data perm w,
        (handle (WriteFile path data perm) w).1 = None →
        files (handle (WriteFile path data perm) w).2 !! path = Some data)
    (c : cachingGenerator) (d : Diagram) (id : string) (w w1 w2 w3 w4 : W)
    (t : Z) (err : error) :
  ID fingerprint d = Ok id →
  handle (CacheHas d) w = (Ok false, w1) →
  handle Now w1 = (t, w2) →
  handle (WriteFile (inputPath c id) (description d) perm0644) w2 = (None, w3) →
  handle (Stat (mermaidCLIPath c)) w3 = (Some err, w4) →
  IsNotExist err = true →
  run handle (Generate fingerprint c d) w =
    ((set_lastTouched d t,
      Some (Errorf "cachingGenerater.generate failed: %w" []
              (Errorf "mermaid executable does not exist: %w" [] err))),
     w4,
     [Call (CacheHas d) (Ok false);
      Call Now t;
      Call (WriteFile (inputPath c id) (description d) perm0644) None;
      Call (Stat (mermaidCLIPath c)) (Some err)])
  ∧ files w4 !! inputPath c id = Some (description d)
  ∧ records w4 = records w.
Proof.
  intros Hid Hhas Hnow Hw Hs Hne.
  pose proof (generate_stat_failure handle fingerprint c (set_lastTouched d t)
                id w2 w3 w4 err Hid Hw Hs) as Hgen.
  rewrite Hne in Hgen.
  split; [exact (Generate_miss_render_failure _ _ _ _ _ _ _ _ _ _ _ _ Hhas Hnow Hgen) |].
  split.
  - pose proof (Hread (Stat (mermaidCLIPath c)) w3 eq_refl) as Hf.
    pose proof (Hwrite (inputPath c id) (description d) perm0644 w2) as Hwr.
    rewrite Hs in Hf. rewrite Hw in Hwr. simpl in *. rewrite Hf. by apply Hwr.
  - pose proof (Hcache (CacheHas d) w eq_refl) as H1.
    pose proof (Hcache Now w1 eq_refl) as H2.
    pose proof (Hcache (WriteFile (inputPath c id) (description d) perm0644) w2 eq_refl) as H3.
    pose proof (Hcache (Stat (mermaidCLIPath c)) w3 eq_refl) as H4.
    rewrite Hhas in H1. rewrite Hnow in H2. rewrite Hw in H3. rewrite Hs in H4.
    simpl in *. congruence.
Qed.
End GenerateTheorems.

(** On [bareHost] a diagram with an empty description has no identity, so
    the existence query fails. *)
Lemma Generate_Has_failure_no_effects_witness :
  Host.handle plainFingerprint (CacheHas (demoDiagram "" "svg" 0)) bareHost
    = (Err (OtherError "empty description"), bareHost)
  ∧ run (Host.handle plainFingerprint)
        (Generate plainFingerprint demoGenerator (demoDiagram "" "svg" 0)) bareHost
    = ((demoDiagram "" "svg" 0,
        Some (Errorf "cache.Has failed: %w" [] (OtherError "empty description"))),
       bareHost,
       [Call (CacheHas (demoDiagram "" "svg" 0)) (Err (OtherError "empty description"))]).
Proof.
  split; [reflexivity |].
  apply (Generate_Has_failure_no_effects (Host.handle plainFingerprint) plainFingerprint).
  reflexivity.
Defined.

(** On [warmHost] the description "a" is a hit: the caller gets [cachedA]
    touched at 500. *)
Lemma Generate_hit_touches_and_stores_witness :
  Host.handle plainFingerprint (CacheHas (demoDiagram "a" "svg" 0)) warmHost
    = (Ok true, warmHost)
  ∧ (run (Host.handle plainFingerprint)
         (Generate plainFingerprint demoGenerator (demoDiagram "a" "svg" 0)) warmHost).1.1
    = (set_lastTouched cachedA 500, None).
Proof.
  split; [reflexivity |].
  destruct (Generate_hit_touches_and_stores (Host.handle plainFingerprint) plainFingerprint
              demoGenerator (demoDiagram "a" "svg" 0) warmHost warmHost eq_refl)
    as [_ Hhit].
  rewrite (Hhit cachedA warmHost (Host.advance warmHost)
             (Host.with_cache (Host.advance warmHost)
                [("a", set_lastTouched cachedA 500)])
             500 None eq_refl eq_refl eq_refl).
  reflexivity.
Defined.

(** With a cache that cannot store, and on a host without the mermaid
    executable, the caller's diagram comes back changed together with the
    error. *)
Lemma Generate_error_keeps_mutation_witness :
  (run (scripted readOnlyCache)
       (Generate plainFingerprint demoGenerator (demoDiagram "a" "svg" 0)) tt).1.1
    = (set_lastTouched cachedA 500,
       Some (Errorf "cache.Store failed: %w" [] (OtherError "read-only store")))
  ∧ set_lastTouched cachedA 500 ≠ demoDiagram "a" "svg" 0
  ∧ (run (Host.handle plainFingerprint)
         (Generate plainFingerprint demoGenerator (demoDiagram "a" "svg" 0)) bareHost).1.1.1
    = set_lastTouched (demoDiagram "a" "svg" 0) 500
  ∧ set_lastTouched (demoDiagram "a" "svg" 0) 500 ≠ demoDiagram "a" "svg" 0.
Proof.
  split; [| split; [discriminate | split; [| discriminate]]].
  - apply (proj1 (Generate_error_keeps_mutation (scripted readOnlyCache) plainFingerprint
                    demoGenerator (demoDiagram "a" "svg" 0) tt)
             cachedA tt tt tt tt 500 (OtherError "read-only store"));
      reflexivity.
  - rewrite (proj2 (Generate_error_keeps_mutation (Host.handle plainFingerprint)
                      plainFingerprint demoGenerator (demoDiagram "a" "svg" 0) bareHost)
               _ bareHost (Host.advance bareHost) _ 500 _ _ eq_refl eq_refl eq_refl).
    reflexivity.
Defined.

(** On [bareHost] the render step fails for lack of the executable and the
    cache stays empty. *)
Lemma Generate_render_failure_stores_nothing_witness :
  Host.handle plainFingerprint (CacheHas (demoDiagram "a" "svg" 0)) bareHost
    = (Ok false, bareHost)
  ∧ (run (Host.handle plainFingerprint)
         (generate plainFingerprint demoGenerator
            (set_lastTouched (demoDiagram "a" "svg" 0) 500))
         (Host.advance bareHost)).1.1.2
    = Some (Errorf "mermaid executable does not exist: %w" []
              (PathError "stat" "/bin/mmdc" true))
  ∧ ∃ tr',
      run (Host.handle plainFingerprint)
          (Generate plainFingerprint demoGenerator (demoDiagram "a" "svg" 0)) bareHost
        = ((set_lastTouched (demoDiagram "a" "svg" 0) 500,
            Some (Errorf "cachingGenerater.generate failed: %w" []
                    (Errorf "mermaid executable does not exist: %w" []
                       (PathError "stat" "/bin/mmdc" true)))),
           Host.with_files (Host.advance bareHost)
             {[ "in/a.mmd" := description cachedA ]},
           tr')
      ∧ Forall (λ a, is_store (call_event a) = false) tr'
      ∧ Host.records
          (Host.with_files (Host.advance bareHost) {[ "in/a.mmd" := description cachedA ]})
        = Host.records bareHost.
Proof.
  split; [reflexivity |]. split; [reflexivity |].
  apply (Generate_render_failure_stores_nothing (Host.handle plainFingerprint)
           plainFingerprint Host.records (Host_handle_cache_frame plainFingerprint)
           demoGenerator (demoDiagram "a" "svg" 0)
           (set_lastTouched (demoDiagram "a" "svg" 0) 500)
           bareHost bareHost (Host.advance bareHost) _ 500 _
           [Call (WriteFile "in/a.mmd" (description cachedA) perm0644) None;
            Call (Stat "/bin/mmdc") (Some (PathError "stat" "/bin/mmdc" true))]);
    reflexivity.
Defined.

(** On [bareHost] the input file in/a.mmd is left behind by the failed
    call. *)
Lemma Generate_missing_backend_leaves_input_witness :
  (ID plainFingerprint diagramA = Ok "a"
   ∧ Host.handle plainFingerprint (CacheHas diagramA) bareHost = (Ok false, bareHost)
   ∧ Host.handle plainFingerprint Now bareHost = (500, Host.advance bareHost)
   ∧ Host.handle plainFingerprint
       (WriteFile (inputPath demoGenerator "a") (description diagramA) perm0644)
       (Host.advance bareHost) = (None, bareHostWithInput)
   ∧ Host.handle plainFingerprint (Stat (mermaidCLIPath demoGenerator)) bareHostWithInput
       = (Some noMmdc, bareHostWithInput)
   ∧ IsNotExist noMmdc = true)
  ∧ (run (Host.handle plainFingerprint) (Generate plainFingerprint demoGenerator diagramA)
         bareHost
       = ((set_lastTouched diagramA 500,
           Some (Errorf "cachingGenerater.generate failed: %w" []
                   (Errorf "mermaid executable does not exist: %w" [] noMmdc))),
          bareHostWithInput,
          [Call (CacheHas diagramA) (Ok false);
           Call Now 500;
           Call (WriteFile (inputPath demoGenerator "a") (description diagramA) perm0644)
                None;
           Call (Stat (mermaidCLIPath demoGenerator)) (Some noMmdc)])
     ∧ Host.files bareHostWithInput !! inputPath demoGenerator "a"
         = Some (description diagramA)
     ∧ Host.records bareHostWithInput = Host.records bareHost).
Proof.
  split; [repeat split; reflexivity |].
  apply (Generate_missing_backend_leaves_input (Host.handle plainFingerprint)
           plainFingerprint Host.records Host.files
           (Host_handle_cache_frame plainFingerprint)
           (Host_handle_read_frame plainFingerprint)
           (Host_handle_write_ok plainFingerprint)
           demoGenerator diagramA "a" bareHost bareHost (Host.advance bareHost)
           bareHostWithInput bareHostWithInput 500 noMmdc);
    reflexivity.
Defined.

(** ** delete and the sweep, under any environment *)

Section CleanUpFacts.
Context {W : Type} (handle : ∀ e : event, W → resp e * W).
Variable fingerprint : list byte → string → result string.

(** One turn of the loop in [CleanUp]. *)
Lemma run_sweep_cons (c : cachingGenerator) (duration : Z) (d : Diagram)
    (rest : list Diagram) (w w1 : W) (now : Z) :
  handle Now w = (now, w1) →
  run handle (sweep fingerprint c duration (d :: rest)) w =
    if now <? lastTouched d + duration then
      let '(r, w2, tr) := run handle (sweep fingerprint c duration rest) w1 in
      (r, w2, Call Now now :: tr)
    else
      let '(r, w2, tr) := run handle (delete fingerprint c d) w1 in
      match r with
      | Some err =>
          (Some (Errorf "could not delete diagram: %w" [] err), w2, Call Now now :: tr)
      | None =>
          let '(r', w3, tr') := run handle (sweep fingerprint c duration rest) w2 in
          (r', w3, Call Now now :: tr ++ tr')
      end.
Proof.
  intros Hnow. cbn -[run delete]. run_with Hnow.
  destruct (now <? lastTouched d + duration); cbn -[run delete sweep].
  - by destruct (run handle (sweep fingerprint c duration rest) w1) as [[r w2] tr].
  - rewrite run_bind.
    destruct (run handle (delete fingerprint c d) w1) as [[[err |] w2] tr];
      cbn -[run delete sweep].
    + cbn. by rewrite app_nil_r.
    + by destruct (run handle (sweep fingerprint c duration rest) w2) as [[r' w3] tr'].
Qed.

(** Sweeping a list in two parts: the second part is swept only when the
    first reported no error. *)
Lemma run_sweep_app (c : cachingGenerator) (duration : Z) (l1 l2 : list Diagram) (w : W) :
  run handle (sweep fingerprint c duration (l1 ++ l2)) w =
    let '(r, w1, tr1) := run handle (sweep fingerprint c duration l1) w in
    match r with
    | Some err => (Some err, w1, tr1)
    | None =>
        let '(r2, w2, tr2) := run handle (sweep fingerprint c duration l2) w1 in
        (r2, w2, tr1 ++ tr2)
    end.
Proof.
  revert w. induction l1 as [| d rest IH]; intros w.
  - simpl. by destruct (run handle (sweep fingerprint c duration l2) w) as [[r2 w2] tr2].
  - rewrite <- app_comm_cons.
    destruct (handle Now w) as [now w1] eqn:Hnow.
    rewrite !(run_sweep_cons _ _ _ _ _ _ _ Hnow).
    destruct (now <? lastTouched d + duration).
    + rewrite IH.
      destruct (run handle (sweep fingerprint c duration rest) w1) as [[[err |] w2] tr]; [done |].
      by destruct (run handle (sweep fingerprint c duration l2) w2) as [[r2 w3] tr2].
    + destruct (run handle (delete fingerprint c d) w1) as [[[err |] w2] tr]; [done |].
      rewrite IH.
      destruct (run handle (sweep fingerprint c duration rest) w2) as [[[err |] w3] tr']; [done |].
      destruct (run handle (sweep fingerprint c duration l2) w3) as [[r2 w4] tr2].
      simpl. by rewrite app_assoc.
Qed.
(** How a sweep is put together: a property of the enumerated records, the
    result and the calls holds of every sweep when it holds of the empty
    sweep and is kept by each of the three turns of the loop (record inside
    the duration, failed delete, successful delete). *)
Lemma sweep_ind (c : cachingGenerator) (duration : Z)
    (P : list Diagram → option error → list answered → Prop) :
  P [] None [] →
  (∀ d rest t r tr,
      (t <? lastTouched d + duration) = true →
      P rest r tr → P (d :: rest) r (Call Now t :: tr)) →
  (∀ d rest t w1 w2 err trd,
      (t <? lastTouched d + duration) = false →
      run handle (delete fingerprint c d) w1 = (Some err, w2, trd) →
      P (d :: rest) (Some (Errorf "could not delete diagram: %w" [] err))
        (Call Now t :: trd)) →
  (∀ d rest t w1 w2 trd r tr,
      (t <? lastTouched d + duration) = false →
      run handle (delete fingerprint c d) w1 = (None, w2, trd) →
      P rest r tr → P (d :: rest) r (Call Now t :: trd ++ tr)) →
  ∀ ds w,
    P ds (run handle (sweep fingerprint c duration ds) w).1.1
         (run handle (sweep fingerprint c duration ds) w).2.
Proof.
  intros Hnil Hskip Hfail Hnext ds.
  induction ds as [| d rest IH]; intros w; [exact Hnil |].
  destruct (handle Now w) as [t w1] eqn:Hnow.
  rewrite (run_sweep_cons _ _ _ _ _ _ _ Hnow).
  destruct (t <? lastTouched d + duration) eqn:Hcmp.
  - specialize (IH w1).
    destruct (run handle (sweep fingerprint c duration rest) w1) as [[r w2] tr].
    by apply Hskip.
  - destruct (run handle (delete fingerprint c d) w1) as [[[err |] w2] trd] eqn:Hdel.
    + by eapply Hfail.
    + specialize (IH w2).
      destruct (run handle (sweep fingerprint c duration rest) w2) as [[r w3] tr].
      by eapply Hnext.
Qed.

(** [CleanUp] is a log line, the enumeration and, if that succeeds, the
    sweep of the enumerated records. *)
Lemma run_CleanUp (c : cachingGenerator) (duration : Z) (w : W) :
  run handle (CleanUp fingerprint c duration) w =
    let '(u, w1) := handle (Printf "Running cleanup") w in
    let '(all, w2) := handle CacheGetAll w1 in
    match all with
    | Err err =>
        (Some (Errorf "could not get cached diagrams: %w" [] err), w2,
         [Call (Printf "Running cleanup") u; Call CacheGetAll (Err err)])
    | Ok ds =>
        let '(r, w3, tr) := run handle (sweep fingerprint c duration ds) w2 in
        (r, w3, Call (Printf "Running cleanup") u :: Call CacheGetAll (Ok ds) :: tr)
    end.
Proof.
  unfold CleanUp. cbn -[run sweep]. rewrite run_Vis.
  destruct (handle (Printf "Running cleanup") w) as [u w1].
  cbn -[run sweep]. rewrite run_Vis.
  destruct (handle CacheGetAll w1) as [[ds | err] w2]; cbn -[run sweep]; [| done].
  by destruct (run handle (sweep fingerprint c duration ds) w2) as [[r w3] tr].
Qed.
End CleanUpFacts.

Section SweepFacts.
Context {W : Type} (handle : ∀ e : event, W → resp e * W).
Variable fingerprint : list byte → string → result string.

(** Deleting another record, of another identity, leaves [d] alone. *)
Lemma delete_other_keeps (c : cachingGenerator) (d d1 : Diagram) (id : string) (w : W) :
  d1 ≠ d →
  ID fingerprint d1 ≠ Ok id →
  retained_in c d id (run handle (delete fingerprint c d1) w).2.
Proof.
  intros Hne Hid. unfold delete.
  destruct (ID fingerprint d1) as [id1 | e0] eqn:Hid1; [| by constructor].
  assert (Hids : id ≠ id1) by congruence.
  assert (Hin : ∀ r, is_store (call_event (Call (Remove (inputPath c id1)) r)) = false
                   ∧ call_event (Call (Remove (inputPath c id1)) r) ≠ CacheDelete d
                   ∧ call_event (Call (Remove (inputPath c id1)) r) ≠ Remove (inputPath c id)
                   ∧ call_event (Call (Remove (inputPath c id1)) r)
                       ≠ Remove (deleteOutPath c id)).
  { intros r. simpl. repeat split; [done | |].
    - intros [= Heq]. by apply Hids, (inputPath_inj c).
    - intros [= Heq]. by apply (inputPath_ne_deleteOutPath c id1 id). }
  assert (Hout : ∀ r, is_store (call_event (Call (Remove (deleteOutPath c id1)) r)) = false
                   ∧ call_event (Call (Remove (deleteOutPath c id1)) r) ≠ CacheDelete d
                   ∧ call_event (Call (Remove (deleteOutPath c id1)) r)
                       ≠ Remove (inputPath c id)
                   ∧ call_event (Call (Remove (deleteOutPath c id1)) r)
                       ≠ Remove (deleteOutPath c id)).
  { intros r. simpl. repeat split; [done | |].
    - intros [= Heq]. by apply (inputPath_ne_deleteOutPath c id id1).
    - intros [= Heq]. by apply Hids, (deleteOutPath_inj c). }
  assert (Hdel : ∀ r, is_store (call_event (Call (CacheDelete d1) r)) = false
                   ∧ call_event (Call (CacheDelete d1) r) ≠ CacheDelete d
                   ∧ call_event (Call (CacheDelete d1) r) ≠ Remove (inputPath c id)
                   ∧ call_event (Call (CacheDelete d1) r) ≠ Remove (deleteOutPath c id)).
  { intros r. simpl. split; [done |]. split; [| done].
    intros [= Heq]. by apply Hne. }
  unfold retained_in. cbn -[run inputPath deleteOutPath].
  run_step. run_step. destruct r0 as [e1 |].
  { constructor; [done |]. constructor; [apply Hin | constructor]. }
  run_step. destruct r0 as [e2 |].
  { constructor; [done |]. constructor; [apply Hin |].
    constructor; [apply Hout | constructor]. }
  run_step.
  destruct r0 as [e3 |];
    (constructor; [done |]); (constructor; [apply Hin |]);
    (constructor; [apply Hout |]); (constructor; [apply Hdel | constructor]).
Qed.

(** A record that is inside the duration at every clock reading of a sweep,
    and whose identity no other enumerated record has, is left alone by the
    whole sweep. *)
Lemma sweep_keeps (c : cachingGenerator) (duration : Z) (d : Diagram) (id : string)
    (ds : list Diagram) (w : W) :
  ID fingerprint d = Ok id →
  (∀ d', d' ∈ ds → ID fingerprint d' = Ok id → d' = d) →
  fresh_at_every_reading duration d (run handle (sweep fingerprint c duration ds) w).2 →
  retained_in c d id (run handle (sweep fingerprint c duration ds) w).2.
Proof.
  intros Hid. revert ds w.
  apply (sweep_ind handle fingerprint c duration
           (λ ds _ tr,
              (∀ d', d' ∈ ds → ID fingerprint d' = Ok id → d' = d) →
              fresh_at_every_reading duration d tr → retained_in c d id tr)).
  - intros _ _. constructor.
  - intros d1 rest t r tr _ IH Huniq [_ Hfresh]%Forall_cons.
    constructor; [done |]. apply IH; [| done].
    intros d' Hd'. apply Huniq. by apply list_elem_of_further.
  - intros d1 rest t w1 w2 err trd Hcmp Hdel Huniq [Ht Hfresh]%Forall_cons.
    destruct (Ht t eq_refl) as (ε & Hε & Htouched). apply Z.ltb_ge in Hcmp.
    assert (Hne : d1 ≠ d) by (intros ->; lia).
    constructor; [done |].
    pose proof (delete_other_keeps c d d1 id w1 Hne) as Hkeep.
    rewrite Hdel in Hkeep. apply Hkeep.
    intros Hid1. apply Hne, Huniq; [apply list_elem_of_here | done].
  - intros d1 rest t w1 w2 trd r tr Hcmp Hdel IH Huniq
      [Ht [Hfresh1 Hfresh2]%Forall_app]%Forall_cons.
    destruct (Ht t eq_refl) as (ε & Hε & Htouched). apply Z.ltb_ge in Hcmp.
    assert (Hne : d1 ≠ d) by (intros ->; lia).
    constructor; [done |]. apply Forall_app. split.
    + pose proof (delete_other_keeps c d d1 id w1 Hne) as Hkeep.
      rewrite Hdel in Hkeep. apply Hkeep.
      intros Hid1. apply Hne, Huniq; [apply list_elem_of_here | done].
    + apply IH; [| done].
      intros d' Hd'. apply Huniq. by apply list_elem_of_further.
Qed.
End SweepFacts.

(** ** CleanUp *)

Section CleanUpTheorems.
Context {W : Type} (handle : ∀ e : event, W → resp e * W).
Variable fingerprint : list byte → string → result string.

(** C1 (amended): the sweep stops at the first record whose deletion fails.
    When the records before [d] were swept without error, [d] is found not
    to have been touched within the duration and [delete] fails on it with
    [cause], [CleanUp] returns [cause] wrapped as "could not delete diagram"
    and its calls end with those of the failed [delete]: the records
    enumerated after [d] are neither evaluated nor deleted, whatever they
    are. *)
Theorem CleanUp_stops_at_first_failed_delete (c : cachingGenerator) (duration : Z)
    (pre post : list Diagram) (d : Diagram) (w w2 w3 w4 w5 : W)
    (cause : error) (tr1 tr2 tr3 : list answered) :
  handle CacheGetAll (handle (Printf "Running cleanup") w).2
    = (Ok (pre ++ d :: post), w2) →
  run handle (sweep fingerprint c duration pre) w2 = (None, w3, tr1) →
  run handle (TouchedInDuration d duration) w3 = (false, w4, tr2) →
  run handle (delete fingerprint c d) w4 = (Some cause, w5, tr3) →
  run handle (CleanUp fingerprint c duration) w =
    (Some (Errorf "could not delete diagram: %w" [] cause),
     w5,
     Call (Printf "Running cleanup") tt
       :: Call CacheGetAll (Ok (pre ++ d :: post))
       :: tr1 ++ tr2 ++ tr3).
Proof.
  intros Hall Hpre Htouched Hdel.
  unfold CleanUp. cbn -[run sweep].
  rewrite run_Vis. destruct (handle (Printf "Running cleanup") w) as [[] w1].
  cbn -[run sweep] in *. run_with Hall.
  rewrite run_sweep_app, Hpre.
  unfold TouchedInDuration in Htouched. cbn -[run] in Htouched.
  run_step. cbn in Htouched. injection Htouched as Hcmp <- <-.
  by rewrite (run_sweep_cons _ _ _ _ _ _ _ _ _ E), Hcmp, Hdel.
Qed.

(** C5 (amended): take a sweep with window W over the enumerated records
    and one of them, [d].

    Retained.  When [d] has identity [id], no other enumerated record has
    that identity, and [d] was touched at [t - W + ε] for every clock
    reading [t] of the sweep, then no call of the sweep stores a record,
    asks the cache to delete [d], or removes the input path or the .svg
    output path of [id]; this holds whether or not the sweep reports an
    error.

    At the turn of [d], with [now] the clock reading taken at that turn and
    no deletion having failed before it: if [d] was touched at
    [now - W + ε], the turn consists of that clock reading alone and the
    sweep goes on with the next record; if [d] was touched at [now - W - ε]
    and the removals of its input path, of <outPath>/<id>.svg and of its
    cache record succeed, these three are made in this order and the sweep
    goes on with the next record, whatever happens to the records after
    [d]. *)
Theorem CleanUp_retention_boundary (c : cachingGenerator) (duration : Z)
    (ds : list Diagram) (d : Diagram) (w w2 : W) :
  handle CacheGetAll (handle (Printf "Running cleanup") w).2 = (Ok ds, w2) →
  (∀ id,
      d ∈ ds →
      ID fingerprint d = Ok id →
      (∀ d', d' ∈ ds → ID fingerprint d' = Ok id → d' = d) →
      fresh_at_every_reading duration d
        (run handle (CleanUp fingerprint c duration) w).2 →
      retained_in c d id (run handle (CleanUp fingerprint c duration) w).2)
  ∧ (∀ pre post w3 w4 now ε tr1,
        ds = pre ++ d :: post →
        run handle (sweep fingerprint c duration pre) w2 = (None, w3, tr1) →
        handle Now w3 = (now, w4) →
        0 < ε →
        (lastTouched d = now - duration + ε →
         run handle (CleanUp fingerprint c duration) w =
           let '(r, w', tr) := run handle (sweep fingerprint c duration post) w4 in
           (r, w',
            Call (Printf "Running cleanup") tt
              :: Call CacheGetAll (Ok ds)
              :: tr1 ++ Call Now now :: tr))
        ∧ (lastTouched d = now - duration - ε →
           ∀ id w6 w7 w8,
             ID fingerprint d = Ok id →
             handle (Remove (inputPath c id))
                    (handle (Printf ("Cleaning up diagram: " +:+ id)) w4).2
               = (None, w6) →
             handle (Remove (deleteOutPath c id)) w6 = (None, w7) →
             handle (CacheDelete d) w7 = (None, w8) →
             run handle (CleanUp fingerprint c duration) w =
               let '(r, w', tr) := run handle (sweep fingerprint c duration post) w8 in
               (r, w',
                Call (Printf "Running cleanup") tt
                  :: Call CacheGetAll (Ok ds)
                  :: tr1
                  ++ Call Now now
                  :: Call (Printf ("Cleaning up diagram: " +:+ id)) tt
                  :: Call (Remove (inputPath c id)) None
                  :: Call (Remove (deleteOutPath c id)) None
                  :: Call (CacheDelete d) None
                  :: tr))).
Proof.
  intros Hall. rewrite run_CleanUp.
  destruct (handle (Printf "Running cleanup") w) as [[] w1]. simpl in Hall.
  rewrite Hall. split.
  - intros id Hin Hid Huniq.
    pose proof (sweep_keeps handle fingerprint c duration d id ds w2 Hid Huniq) as Hkeep.
    destruct (run handle (sweep fingerprint c duration ds) w2) as [[r w3] tr].
    simpl in *. intros [_ [_ Hfresh]%Forall_cons]%Forall_cons.
    constructor; [done |]. constructor; [done |]. by apply Hkeep.
  - intros pre post w3 w4 now ε tr1 -> Hpre Hnow Hε.
    rewrite run_sweep_app, Hpre, (run_sweep_cons _ _ _ _ _ _ _ _ _ Hnow).
    split.
    + intros Htouched.
      assert (Hcmp : (now <? lastTouched d + duration) = true)
        by (apply Z.ltb_lt; lia).
      rewrite Hcmp.
      by destruct (run handle (sweep fingerprint c duration post) w4) as [[r w'] tr].
    + intros Htouched id w6 w7 w8 Hid Hrm1 Hrm2 Hdel.
      assert (Hcmp : (now <? lastTouched d + duration) = false)
        by (apply Z.ltb_ge; lia).
      rewrite Hcmp.
      assert (Hrun : run handle (delete fingerprint c d) w4
                     = (None, w8,
                        [Call (Printf ("Cleaning up diagram: " +:+ id)) tt;
                         Call (Remove (inputPath c id)) None;
                         Call (Remove (deleteOutPath c id)) None;
                         Call (CacheDelete d) None])).
      { unfold delete. rewrite Hid. cbn -[run inputPath deleteOutPath].
        rewrite run_Vis.
        destruct (handle (Printf ("Cleaning up diagram: " +:+ id)) w4) as [[] w5].
        simpl in Hrm1. cbn -[run inputPath deleteOutPath].
        run_with Hrm1. run_with Hrm2. by run_with Hdel. }
      rewrite Hrun.
      by destruct (run handle (sweep fingerprint c duration post) w8) as [[r w'] tr].
Qed.
End CleanUpTheorems.

(** C6: [delete] removes the input file, then the output path, then the cache
    record, and stops at the first step that fails without touching the
    earlier ones again.  The second part shows the partial state on a host:
    the input file is removed, the removal of the output fails, and the
    record is still in the cache. *)
Theorem delete_three_steps_no_rollback :
  (∀ (W : Type) (handle : ∀ e : event, W → resp e * W)
     (fingerprint : list byte → string → result string)
     (c : cachingGenerator) (d : Diagram) (id : string) (w : W),
      ID fingerprint d = Ok id →
      let logged := Call (Printf ("Cleaning up diagram: " +:+ id)) tt in
      let w0 := (handle (Printf ("Cleaning up diagram: " +:+ id)) w).2 in
      (∀ err w1,
          handle (Remove (inputPath c id)) w0 = (Some err, w1) →
          run handle (delete fingerprint c d) w =
            (Some (Errorf "could not delete diagram input: %w" [] err), w1,
             [logged; Call (Remove (inputPath c id)) (Some err)]))
      ∧ (∀ err w1 w2,
          handle (Remove (inputPath c id)) w0 = (None, w1) →
          handle (Remove (deleteOutPath c id)) w1 = (Some err, w2) →
          run handle (delete fingerprint c d) w =
            (Some (Errorf "could not delete diagram output: %w" [] err), w2,
             [logged; Call (Remove (inputPath c id)) None;
              Call (Remove (deleteOutPath c id)) (Some err)]))
      ∧ (∀ (r : option error) w1 w2 w3,
          handle (Remove (inputPath c id)) w0 = (None, w1) →
          handle (Remove (deleteOutPath c id)) w1 = (None, w2) →
          handle (CacheDelete d) w2 = (r, w3) →
          run handle (delete fingerprint c d) w =
            (Errorf "could not remove diagram from cache: %w" [] <$> r, w3,
             [logged; Call (Remove (inputPath c id)) None;
              Call (Remove (deleteOutPath c id)) None;
              Call (CacheDelete d) r])))
  ∧ (Host.files halfHost !! "in/a.mmd" = Some (description cachedA)
     ∧ (run (Host.handle plainFingerprint)
            (delete plainFingerprint demoGenerator cachedA) halfHost).1.1
       = Some (Errorf "could not delete diagram output: %w" []
                 (PathError "remove" "out/a.svg" true))
     ∧ Host.files (run (Host.handle plainFingerprint)
                       (delete plainFingerprint demoGenerator cachedA) halfHost).1.2
         !! "in/a.mmd" = None
     ∧ Host.find_id "a"
         (Host.cache (run (Host.handle plainFingerprint)
                          (delete plainFingerprint demoGenerator cachedA) halfHost).1.2)
       = Some cachedA).
Proof.
  split; [| by vm_compute].
  intros W handle fingerprint c d id w Hid logged w0. subst logged w0.
  unfold delete. rewrite Hid. cbn -[run inputPath deleteOutPath].
  rewrite run_Vis. destruct (handle (Printf ("Cleaning up diagram: " +:+ id)) w) as [[] w0].
  cbn -[run inputPath deleteOutPath].
  split; [| split].
  - intros err w1 H1. by run_with H1.
  - intros err w1 w2 H1 H2. run_with H1. by run_with H2.
  - intros r w1 w2 w3 H1 H2 H3. run_with H1. run_with H2. run_with H3.
    by destruct r.
Qed.

(** ** File names and backend arguments *)

(** Splits a membership in an explicit list into its cases, dropping those
    that equate different constructors. *)
Ltac elem_inv H :=
  repeat (apply elem_of_cons in H as [H | H]; [try discriminate H |]);
  try (by apply elem_of_nil in H).

Section PathTheorems.
Context {W : Type} (handle : ∀ e : event, W → resp e * W).
Variable fingerprint : list byte → string → result string.

(** A successful [generate] records the output path it derived from the
    image type. *)
Lemma generate_success (c : cachingGenerator) (d d' : Diagram) (w w' : W)
    (tr : list answered) :
  run handle (generate fingerprint c d) w = ((d', None), w', tr) →
  ∃ id, ID fingerprint d = Ok id
    ∧ d' = set_Output d (generateOutPath c id (imgType d)).
Proof.
  unfold generate. destruct (ID fingerprint d) as [id | e0]; [| by intros [=]].
  intros Hrun. exists id. split; [done |]. revert Hrun.
  cbn -[run inputPath generateOutPath mermaidArgs].
  run_step. destruct r as [e1 |]; [by intros [=] |].
  run_step. destruct r as [e2 |].
  { destruct (IsNotExist e2); by intros [=]. }
  run_step. destruct r as [[[e3 |] stdOut] stdErr]; [by intros [=] |].
  cbn -[run inputPath generateOutPath mermaidArgs]. run_step.
  cbn. intros H. injection H. intros. by subst.
Qed.

Lemma outPath_svg_only (c : cachingGenerator) (id ty : string) :
  deleteOutPath c id = generateOutPath c id ty → ty = "svg".
Proof.
  unfold deleteOutPath, generateOutPath.
  change ".svg" with ("." +:+ "svg").
  intros H. by do 4 apply String.app_inj in H.
Qed.

(** C2: for a diagram of identity [id] whose image type is not "svg".
    Generation: once the input file is written, the executable is found and
    the backend succeeds, [generate] has handed "-o" with
    <outPath>/<id>.<imgType> to the backend and returns the diagram with
    that path as [Output].  Cleanup: [delete], on any record of that
    identity, removes <outPath>/<id>.svg right after the input file, and
    asks for no removal other than these two.  The two output paths
    differ. *)
Theorem cleanup_output_path_mismatch (c : cachingGenerator) (d : Diagram) (id : string) :
  ID fingerprint d = Ok id →
  imgType d ≠ "svg" →
  (∀ w w1 w2 w3 stdOut stdErr,
      handle (WriteFile (inputPath c id) (description d) perm0644) w = (None, w1) →
      handle (Stat (mermaidCLIPath c)) w1 = (None, w2) →
      handle (Run (mermaidCLIPath c)
                  (mermaidArgs c (inputPath c id)
                     (outPath c +:+ "/" +:+ id +:+ "." +:+ imgType d))) w2
        = ((None, stdOut, stdErr), w3) →
      (run handle (generate fingerprint c d) w).1.1
        = (set_Output d (outPath c +:+ "/" +:+ id +:+ "." +:+ imgType d), None)
      ∧ events (run handle (generate fingerprint c d) w).2
        = [WriteFile (inputPath c id) (description d) perm0644;
           Stat (mermaidCLIPath c);
           Run (mermaidCLIPath c)
               (mermaidArgs c (inputPath c id)
                  (outPath c +:+ "/" +:+ id +:+ "." +:+ imgType d));
           Printf ("Generated: " +:+ id +:+ ": " +:+ stdOut +:+ ": " +:+ stdErr)]
      ∧ ∃ rest,
          mermaidArgs c (inputPath c id) (outPath c +:+ "/" +:+ id +:+ "." +:+ imgType d)
          = ["-i"; inputPath c id;
             "-o"; outPath c +:+ "/" +:+ id +:+ "." +:+ imgType d] ++ rest)
  ∧ (∀ d' w w1,
        ID fingerprint d' = Ok id →
        handle (Remove (inputPath c id))
               (handle (Printf ("Cleaning up diagram: " +:+ id)) w).2 = (None, w1) →
        ∃ rest,
          events (run handle (delete fingerprint c d') w).2
          = Printf ("Cleaning up diagram: " +:+ id)
              :: Remove (inputPath c id)
              :: Remove (outPath c +:+ "/" +:+ id +:+ ".svg")
              :: rest)
  ∧ (∀ d' w,
        ID fingerprint d' = Ok id →
        Forall (λ path, path = inputPath c id
                        ∨ path = outPath c +:+ "/" +:+ id +:+ ".svg")
               (remove_requests (run handle (delete fingerprint c d') w).2))
  ∧ outPath c +:+ "/" +:+ id +:+ ".svg"
      ≠ outPath c +:+ "/" +:+ id +:+ "." +:+ imgType d.
Proof.
  intros Hid Hty. split; [| split; [| split]].
  - intros w w1 w2 w3 stdOut stdErr Hw Hs Hr.
    change (outPath c +:+ "/" +:+ id +:+ "." +:+ imgType d)
      with (generateOutPath c id (imgType d)) in *.
    split; [| split].
    + unfold generate. rewrite Hid. cbn -[run mermaidArgs inputPath generateOutPath].
      run_with Hw. run_with Hs. run_with Hr. run_step. reflexivity.
    + unfold generate. rewrite Hid. cbn -[run mermaidArgs inputPath generateOutPath].
      run_with Hw. run_with Hs. run_with Hr. run_step. reflexivity.
    + unfold mermaidArgs. case_decide; by eexists.
  - intros d' w w1 Hid' Hrm. unfold delete. rewrite Hid'.
    cbn -[run inputPath deleteOutPath]. rewrite run_Vis.
    destruct (handle (Printf ("Cleaning up diagram: " +:+ id)) w) as [u w0].
    simpl in Hrm. cbn -[run inputPath deleteOutPath]. run_with Hrm.
    run_step. destruct r as [err |]; [by eexists |].
    run_step. destruct r as [err |]; by eexists.
  - intros d' w Hid'. unfold delete. rewrite Hid'.
    cbn -[run inputPath deleteOutPath].
    run_step. run_step. destruct r0 as [e1 |]; [by repeat constructor; eauto |].
    run_step. destruct r0 as [e2 |]; [by repeat (constructor; [by eauto |]) |].
    run_step. destruct r0 as [e3 |]; by repeat (constructor; [by eauto |]).
  - intros Heq. by apply Hty, (outPath_svg_only c id).
Qed.

(** C8: whenever [generate] starts the backend it starts the configured
    executable with "-i" and the input path, "-o" and the output path, and
    with "-p" and the puppeteer configuration path exactly when that path
    is not empty.  It does start the backend once the input file is
    written and the executable is found. *)
Theorem generate_backend_arguments (c : cachingGenerator) (d : Diagram) (w : W) :
  (∀ name args,
      Run name args ∈ events (run handle (generate fingerprint c d) w).2 →
      ∃ id, ID fingerprint d = Ok id
        ∧ name = mermaidCLIPath c
        ∧ (puppeteerConfigPath c = "" →
           args = ["-i"; inputPath c id; "-o"; generateOutPath c id (imgType d)])
        ∧ (puppeteerConfigPath c ≠ "" →
           args = ["-i"; inputPath c id; "-o"; generateOutPath c id (imgType d);
                   "-p"; puppeteerConfigPath c]))
  ∧ (∀ id w1 w2,
      ID fingerprint d = Ok id →
      handle (WriteFile (inputPath c id) (description d) perm0644) w = (None, w1) →
      handle (Stat (mermaidCLIPath c)) w1 = (None, w2) →
      [WriteFile (inputPath c id) (description d) perm0644;
       Stat (mermaidCLIPath c);
       Run (mermaidCLIPath c)
           (mermaidArgs c (inputPath c id) (generateOutPath c id (imgType d)))]
        `prefix_of` events (run handle (generate fingerprint c d) w).2).
Proof.
  split.
  - intros name args. unfold generate.
    destruct (ID fingerprint d) as [id | e0]; [| by intros ?%elem_of_nil].
    assert (Hargs : ∀ args0,
               args0 = mermaidArgs c (inputPath c id) (generateOutPath c id (imgType d)) →
               (puppeteerConfigPath c = "" →
                args0 = ["-i"; inputPath c id; "-o"; generateOutPath c id (imgType d)])
               ∧ (puppeteerConfigPath c ≠ "" →
                  args0 = ["-i"; inputPath c id; "-o"; generateOutPath c id (imgType d);
                           "-p"; puppeteerConfigPath c])).
    { intros args0 ->. unfold mermaidArgs. by case_decide. }
    cbn -[run inputPath generateOutPath mermaidArgs].
    run_step. destruct r as [e1 |]; [simpl; intros Hin; by elem_inv Hin |].
    run_step. destruct r as [e2 |].
    { destruct (IsNotExist e2); simpl; intros Hin; by elem_inv Hin. }
    run_step. destruct r as [[[e3 |] stdOut] stdErr].
    + simpl. intros Hin. exists id. split; [done |].
      elem_inv Hin. injection Hin as -> ->.
      split; [done |]. by apply Hargs.
    + cbn -[run inputPath generateOutPath mermaidArgs]. run_step.
      simpl. intros Hin. exists id. split; [done |].
      elem_inv Hin. injection Hin as -> ->.
      split; [done |]. by apply Hargs.
  - intros id w1 w2 Hid Hw Hs. unfold generate. rewrite Hid.
    cbn -[run inputPath generateOutPath mermaidArgs].
    run_with Hw. run_with Hs.
    run_step. destruct r as [[[e3 |] stdOut] stdErr]; [by eexists [] |].
    cbn -[run inputPath generateOutPath mermaidArgs]. run_step. by eexists [_].
Qed.
End PathTheorems.

(** C1 (counterexample): on [staleHost] the cache enumerates "a" then "b",
    both touched at 100 and swept at 500 with a window of 24.  Removing the
    input file of "a" fails.  Record "b" is outside the window and [delete]
    succeeds on it when run on its own, yet after the sweep "b" is still in
    the cache and both its files are still there. *)
Lemma CleanUp_failure_blocks_later_records :
  staleSweep.1.1
    = Some (Errorf "could not delete diagram: %w" []
              (Errorf "could not delete diagram input: %w" []
                 (PathError "remove" "in/a.mmd" true)))
  ∧ lastTouched cachedB + 24 ≤ Host.clock staleHost
  ∧ (run (Host.handle plainFingerprint)
         (delete plainFingerprint demoGenerator cachedB) staleHost).1.1 = None
  ∧ Host.find_id "b" (Host.cache staleSweep.1.2) = Some cachedB
  ∧ Host.files staleSweep.1.2 !! "in/b.mmd" = Some (description cachedB)
  ∧ Host.files staleSweep.1.2 !! "out/b.svg" = Some (description cachedB).
Proof.
  repeat split; try (vm_compute; reflexivity).
  vm_compute. discriminate.
Qed.

(** On [staleHost] the sweep ends with the failed removal of in/a.mmd and
    never reads the clock for "b". *)
Lemma CleanUp_stops_at_first_failed_delete_witness :
  run (Host.handle plainFingerprint) (TouchedInDuration cachedA 24) staleHost
    = (false, staleHost, [Call Now 500])
  ∧ run (Host.handle plainFingerprint) (CleanUp plainFingerprint demoGenerator 24) staleHost
    = (Some (Errorf "could not delete diagram: %w" []
               (Errorf "could not delete diagram input: %w" []
                  (PathError "remove" "in/a.mmd" true))),
       staleHost,
       Call (Printf "Running cleanup") tt
         :: Call CacheGetAll (Ok ([] ++ cachedA :: [cachedB]))
         :: [] ++ [Call Now 500]
         ++ [Call (Printf "Cleaning up diagram: a") tt;
             Call (Remove "in/a.mmd") (Some (PathError "remove" "in/a.mmd" true))]).
Proof.
  split; [reflexivity |].
  apply (CleanUp_stops_at_first_failed_delete (Host.handle plainFingerprint)
           plainFingerprint demoGenerator 24 [] [cachedB] cachedA
           staleHost staleHost staleHost staleHost staleHost);
    reflexivity.
Defined.

(** C5 (counterexample): two sweeps with a window of 24 in which a record
    touched at now - 24 - ε is not deleted.  On [orphanHost] the only record
    was touched at 100 = 500 - 24 - 376 and the sweep reads the clock at 500;
    its input file is gone, so its deletion fails and the record is still in
    the cache.  On [blockedHost] the records "b", "a", "e" are enumerated in
    this order and all were touched at 100; "b" is deleted, the deletion of
    "a" fails, and "e", read at no clock at all, is still in the cache with
    both its files although [delete] succeeds on it when run on its own. *)
Lemma CleanUp_stale_record_not_deleted :
  ((Host.handle plainFingerprint CacheGetAll orphanHost).1 = Ok [cachedA]
   ∧ lastTouched cachedA = Host.clock orphanHost - 24 - 376
   ∧ is_Some orphanSweep.1.1
   ∧ Host.find_id "a" (Host.cache orphanSweep.1.2) = Some cachedA)
  ∧ ((Host.handle plainFingerprint CacheGetAll blockedHost).1
       = Ok [cachedB; cachedA; cachedE]
     ∧ is_Some blockedSweep.1.1
     ∧ Host.find_id "b" (Host.cache blockedSweep.1.2) = None
     ∧ lastTouched cachedE + 24 < Host.clock blockedHost
     ∧ (run (Host.handle plainFingerprint)
            (delete plainFingerprint demoGenerator cachedE) blockedHost).1.1 = None
     ∧ Host.find_id "e" (Host.cache blockedSweep.1.2) = Some cachedE
     ∧ Host.files blockedSweep.1.2 !! "in/e.mmd" = Some (description cachedE)
     ∧ Host.files blockedSweep.1.2 !! "out/e.svg" = Some (description cachedE)).
Proof.
  repeat split; try (vm_compute; reflexivity); vm_compute; by eexists.
Qed.

(** On [tidyHost] the sweep reads the clock at 500 for "b" and deletes it,
    reads it at 501 for "c" and keeps it; no call of the sweep touches "c".
    On [blockedHost] "b" is deleted at its turn although the sweep then
    fails on "a". *)
Lemma CleanUp_retention_boundary_witness :
  (fresh_at_every_reading 24 cachedC tidySweep.2
   ∧ retained_in demoGenerator cachedC "c" tidySweep.2)
  ∧ (lastTouched cachedC = 501 - 24 + 13
     ∧ tidySweep.1.1 = None
     ∧ Host.find_id "c" (Host.cache tidySweep.1.2) = Some cachedC)
  ∧ (lastTouched cachedB = 500 - 24 - 376
     ∧ is_Some blockedSweep.1.1
     ∧ blockedSweep.2
       = Call (Printf "Running cleanup") tt
           :: Call CacheGetAll (Ok [cachedB; cachedA; cachedE])
           :: [] ++ Call Now 500
           :: Call (Printf "Cleaning up diagram: b") tt
           :: Call (Remove "in/b.mmd") None
           :: Call (Remove "out/b.svg") None
           :: Call (CacheDelete cachedB) None
           :: [Call Now 501;
               Call (Printf "Cleaning up diagram: a") tt;
               Call (Remove "in/a.mmd") (Some (PathError "remove" "in/a.mmd" true))]).
Proof.
  assert (Hfresh : fresh_at_every_reading 24 cachedC tidySweep.2).
  { unfold fresh_at_every_reading. set (tr := tidySweep.2). vm_compute in tr. subst tr.
    repeat (constructor;
            [intros t Ht; simpl in Ht; simplify_eq;
             first [by exists 14 | by exists 13] |]).
    constructor. }
  destruct (CleanUp_retention_boundary (Host.handle plainFingerprint) plainFingerprint
              demoGenerator 24 [cachedB; cachedC] cachedC tidyHost tidyHost eq_refl)
    as [Hkeep Hturn].
  destruct (CleanUp_retention_boundary (Host.handle plainFingerprint) plainFingerprint
              demoGenerator 24 [cachedB; cachedA; cachedE] cachedB
              blockedHost blockedHost eq_refl)
    as [_ Hturn'].
  split; [split; [exact Hfresh |] |].
  { apply (Hkeep "c"); [apply list_elem_of_further, list_elem_of_here | reflexivity | |
                        exact Hfresh].
    intros d' Hd' Hid.
    apply elem_of_cons in Hd' as [-> | Hd']; [discriminate Hid |].
    apply elem_of_cons in Hd' as [-> | Hd']; [reflexivity |].
    by apply elem_of_nil in Hd'. }
  split.
  { split; [reflexivity |].
    pose proof (proj1 (Hturn [cachedB] [] _ _ 501 13 _ eq_refl
                         ltac:(vm_compute; reflexivity) eq_refl eq_refl) eq_refl)
      as Hrun.
    fold tidySweep in Hrun. rewrite Hrun. split; reflexivity. }
  split; [reflexivity |]. split; [vm_compute; by eexists |].
  pose proof (proj2 (Hturn' [] [cachedA; cachedE] _ _ 500 376 [] eq_refl
                       eq_refl eq_refl eq_refl) eq_refl "b" _ _ _
                eq_refl eq_refl eq_refl eq_refl) as Hrun.
  fold blockedSweep in Hrun. rewrite Hrun. vm_compute. reflexivity.
Defined.

(** On [halfHost] the second step fails after the first succeeded. *)
Lemma delete_three_steps_no_rollback_witness :
  ID plainFingerprint cachedA = Ok "a"
  ∧ run (Host.handle plainFingerprint) (delete plainFingerprint demoGenerator cachedA) halfHost
    = (Some (Errorf "could not delete diagram output: %w" []
               (PathError "remove" "out/a.svg" true)),
       Host.with_files halfHost (base.delete "in/a.mmd" (Host.files halfHost)),
       [Call (Printf "Cleaning up diagram: a") tt;
        Call (Remove "in/a.mmd") None;
        Call (Remove "out/a.svg") (Some (PathError "remove" "out/a.svg" true))]).
Proof.
  split; [reflexivity |].
  eapply (proj1 (proj2 (proj1 delete_three_steps_no_rollback _
                         (Host.handle plainFingerprint) plainFingerprint
                         demoGenerator cachedA "a" halfHost eq_refl)));
    reflexivity.
Defined.

(** On [readyHost] a png diagram is rendered to out/a.png; [delete] of the
    rendered record then removes in/a.mmd, asks to remove out/a.svg, and
    leaves out/a.png where it is. *)
Lemma cleanup_output_path_mismatch_witness :
  (ID plainFingerprint pngDiagram = Ok "a" ∧ imgType pngDiagram ≠ "svg")
  ∧ (run (Host.handle plainFingerprint)
         (generate plainFingerprint demoGenerator pngDiagram) readyHost).1.1
    = (pngRendered, None)
  ∧ Host.files pngWorld !! "out/a.png" = Some (description pngDiagram)
  ∧ (∃ rest,
       events (run (Host.handle plainFingerprint)
                   (delete plainFingerprint demoGenerator pngRendered) pngWorld).2
       = Printf "Cleaning up diagram: a"
           :: Remove "in/a.mmd" :: Remove "out/a.svg" :: rest)
  ∧ Host.files (run (Host.handle plainFingerprint)
                    (delete plainFingerprint demoGenerator pngRendered) pngWorld).1.2
      !! "out/a.png" = Some (description pngDiagram)
  ∧ "out/a.svg" ≠ "out/a.png".
Proof.
  destruct (cleanup_output_path_mismatch (Host.handle plainFingerprint) plainFingerprint
              demoGenerator pngDiagram "a" eq_refl ltac:(discriminate))
    as (Hgen & Hdel & _ & Hne).
  split; [split; [reflexivity | discriminate] |].
  split.
  { eapply (proj1 (Hgen readyHost _ _ _ _ _ eq_refl eq_refl eq_refl)). }
  split; [reflexivity |].
  split.
  { eapply (Hdel pngRendered pngWorld _ eq_refl). reflexivity. }
  split; [reflexivity | exact Hne].
Defined.

(** With a puppeteer configuration the backend gets six arguments. *)
Lemma generate_backend_arguments_witness :
  Run "/bin/mmdc" ["-i"; "in/a.mmd"; "-o"; "out/a.svg"; "-p"; "pptr.json"]
    ∈ events (run (Host.handle plainFingerprint)
                  (generate plainFingerprint sandboxedGenerator (demoDiagram "a" "svg" 0))
                  readyHost).2
  ∧ ∃ id, ID plainFingerprint (demoDiagram "a" "svg" 0) = Ok id
      ∧ "/bin/mmdc" = mermaidCLIPath sandboxedGenerator
      ∧ (puppeteerConfigPath sandboxedGenerator = "" →
         ["-i"; "in/a.mmd"; "-o"; "out/a.svg"; "-p"; "pptr.json"]
           = ["-i"; inputPath sandboxedGenerator id; "-o";
              generateOutPath sandboxedGenerator id "svg"])
      ∧ (puppeteerConfigPath sandboxedGenerator ≠ "" →
         ["-i"; "in/a.mmd"; "-o"; "out/a.svg"; "-p"; "pptr.json"]
           = ["-i"; inputPath sandboxedGenerator id; "-o";
              generateOutPath sandboxedGenerator id "svg";
              "-p"; puppeteerConfigPath sandboxedGenerator]).
Proof.
  assert (Hin : Run "/bin/mmdc" ["-i"; "in/a.mmd"; "-o"; "out/a.svg"; "-p"; "pptr.json"]
                  ∈ events (run (Host.handle plainFingerprint)
                              (generate plainFingerprint sandboxedGenerator
                                 (demoDiagram "a" "svg" 0))
                              readyHost).2).
  { vm_compute. apply list_elem_of_further, list_elem_of_further, list_elem_of_here. }
  split; [exact Hin |].
  exact (proj1 (generate_backend_arguments (Host.handle plainFingerprint) plainFingerprint
                  sandboxedGenerator (demoDiagram "a" "svg" 0) readyHost) _ _ Hin).
Defined.

(** * More about the generator *)

Section GenerateMore.
Context {W : Type} (handle : ∀ e : event, W → resp e * W).
Variable fingerprint : list byte → string → result string.

(** X1: when [cache.Has] reports a hit and [cache.Get] fails, [Generate]
    returns the error wrapped as "cache.Get failed"; the caller's diagram is
    neither replaced nor touched, and Has and Get are the only calls. *)
Theorem Generate_Get_failure_keeps_diagram (c : cachingGenerator) (d : Diagram)
    (w w1 w2 : W) (err : error) :
  handle (CacheHas d) w = (Ok true, w1) →
  handle (CacheGet d) w1 = (Err err, w2) →
  run handle (Generate fingerprint c d) w =
    ((d, Some (Errorf "cache.Get failed: %w" [] err)),
     w2,
     [Call (CacheHas d) (Ok true); Call (CacheGet d) (Err err)]).
Proof.
  intros Hhas Hget. unfold Generate. cbn -[run generate].
  run_with Hhas. by run_with Hget.
Qed.

(** X2: [Generate] returns nil only after [cache.Store] accepted exactly the
    diagram it hands back: that Store is the last call and the only Store of
    the run. *)
Theorem Generate_nil_means_stored (c : cachingGenerator) (d d' : Diagram)
    (w w' : W) (tr : list answered) :
  run handle (Generate fingerprint c d) w = ((d', None), w', tr) →
  ∃ tr0,
    tr = tr0 ++ [Call (CacheStore d') None]
    ∧ Forall (λ a, is_store (call_event a) = false) tr0.
Proof.
  unfold Generate, Touch, generate. run_all; intros Hrun; try discriminate Hrun.
  all: injection Hrun as <- <- <-.
  - eexists [_; _; _]. split; [reflexivity | by repeat constructor].
  - eexists [_; _; _; _; _; _]. split; [reflexivity | by repeat constructor].
Qed.


(** X4: every error of [Generate] is the error of the step that failed,
    wrapped under that step's name.  The last call of the run is the failed
    one: a Has answered with an error gives "cache.Has failed" around that
    error, a Get "cache.Get failed", a Store "cache.Store failed"; an error
    of the render step gives "cachingGenerater.generate failed" around the
    error [generate] reports for its own failed step. *)
Theorem Generate_error_forms (c : cachingGenerator) (d d' : Diagram)
    (w w' : W) (err : error) (tr : list answered) :
  run handle (Generate fingerprint c d) w = ((d', Some err), w', tr) →
  (∃ cause,
      last tr = Some (Call (CacheHas d) (Err cause))
      ∧ err = Errorf "cache.Has failed: %w" [] cause)
  ∨ (∃ cause,
        last tr = Some (Call (CacheGet d) (Err cause))
        ∧ err = Errorf "cache.Get failed: %w" [] cause)
  ∨ (∃ cause,
        last tr = Some (Call (CacheStore d') (Some cause))
        ∧ err = Errorf "cache.Store failed: %w" [] cause)
  ∨ (∃ gerr,
        generate_error_at fingerprint c d tr gerr
        ∧ err = Errorf "cachingGenerater.generate failed: %w" [] gerr).
Proof.
  unfold Generate, Touch, generate, generate_error_at.
  run_all; intros Hrun; try discriminate Hrun;
    injection Hrun; intros; subst; cbn; pick_case.
Qed.

(** X5: on a miss whose render step succeeds, [Generate] passes the rendered
    diagram to [cache.Store] and hands it back to the caller whether or not
    the Store succeeds: when Store fails the caller gets the error wrapped as
    "cache.Store failed" together with a diagram whose [Output] is set. *)
Theorem Generate_miss_render_success (c : cachingGenerator) (d d' : Diagram)
    (w w1 w2 w3 w4 : W) (t : Z) (serr : option error) (tr : list answered) :
  handle (CacheHas d) w = (Ok false, w1) →
  handle Now w1 = (t, w2) →
  run handle (generate fingerprint c (set_lastTouched d t)) w2 = ((d', None), w3, tr) →
  handle (CacheStore d') w3 = (serr, w4) →
  run handle (Generate fingerprint c d) w =
    ((d', Errorf "cache.Store failed: %w" [] <$> serr),
     w4,
     Call (CacheHas d) (Ok false) :: Call Now t :: tr ++ [Call (CacheStore d') serr])
  ∧ ∃ id, ID fingerprint d = Ok id
      ∧ d' = set_Output (set_lastTouched d t) (generateOutPath c id (imgType d)).
Proof.
  intros Hhas Hnow Hgen Hstore. split.
  - unfold Generate, Touch. cbn -[run generate].
    run_with Hhas. run_with Hnow. rewrite run_bind, Hgen.
    cbn -[run]. run_with Hstore. by destruct serr.
  - by apply (generate_success handle fingerprint c _ _ _ _ _ Hgen).
Qed.

(** X6: on a miss the diagram handed back always has the caller's
    description and image type, hence its identity, and its [lastTouched] is
    the clock reading, whatever the outcome of the render step and of the
    Store. *)
Theorem Generate_miss_keeps_identity (c : cachingGenerator) (d : Diagram) (w w1 : W) :
  handle (CacheHas d) w = (Ok false, w1) →
  description (run handle (Generate fingerprint c d) w).1.1.1 = description d
  ∧ imgType (run handle (Generate fingerprint c d) w).1.1.1 = imgType d
  ∧ ID fingerprint (run handle (Generate fingerprint c d) w).1.1.1 = ID fingerprint d
  ∧ lastTouched (run handle (Generate fingerprint c d) w).1.1.1 = (handle Now w1).1.
Proof.
  intros Hhas. unfold Generate, Touch, generate. cbn -[run].
  run_with Hhas. run_all; done.
Qed.

(** X7: [Generate] stops at the first call that fails: in every run no call
    but the last one was answered with an error, and when [Generate] returns
    nil no call was. *)
Theorem Generate_fail_fast (c : cachingGenerator) (d : Diagram) (w : W) :
  fail_fast (run handle (Generate fingerprint c d) w).2 = true
  ∧ ((run handle (Generate fingerprint c d) w).1.1.2 = None →
     Forall (λ a, answer_failed a = false) (run handle (Generate fingerprint c d) w).2).
Proof.
  unfold Generate, Touch, generate. run_all;
    (split; [reflexivity | intros Hnil; try discriminate Hnil; by repeat constructor]).
Qed.
End GenerateMore.

Section generateMore.
Context {W : Type} (handle : ∀ e : event, W → resp e * W).
Variable fingerprint : list byte → string → result string.

(** Every call of [generate] is one of its four, with the arguments derived
    from the configuration and the diagram. *)
Lemma generate_events_args (c : cachingGenerator) (d : Diagram) (id : string) (w : W) :
  ID fingerprint d = Ok id →
  Forall (λ e,
            e = WriteFile (inputPath c id) (description d) perm0644
            ∨ e = Stat (mermaidCLIPath c)
            ∨ e = Run (mermaidCLIPath c)
                    (mermaidArgs c (inputPath c id) (generateOutPath c id (imgType d)))
            ∨ ∃ msg, e = Printf msg)
         (events (run handle (generate fingerprint c d) w).2).
Proof.
  intros Hid. unfold generate. rewrite Hid.
  run_all; simpl; repeat (constructor; [by eauto 8 |]); constructor.
Qed.

(** X8: [generate] calls, in this order and each at most once, WriteFile on
    <inPath>/<id>.mmd with the description and mode 0644, Stat on the
    configured executable, Run of that executable, and Printf; a failure cuts
    the sequence short.  It calls nothing else: no cache operation and no
    removal. *)
Theorem generate_call_order (c : cachingGenerator) (d : Diagram) (w : W) :
  kinds (run handle (generate fingerprint c d) w).2
    `prefix_of` [KWriteFile; KStat; KRun; KPrintf]
  ∧ ∀ id, ID fingerprint d = Ok id →
      Forall (λ e,
                e = WriteFile (inputPath c id) (description d) perm0644
                ∨ e = Stat (mermaidCLIPath c)
                ∨ e = Run (mermaidCLIPath c)
                        (mermaidArgs c (inputPath c id)
                           (generateOutPath c id (imgType d)))
                ∨ ∃ msg, e = Printf msg)
             (events (run handle (generate fingerprint c d) w).2).
Proof.
  split; [| intros id Hid; by apply generate_events_args].
  unfold generate. run_all; by eexists.
Qed.

(** X9: [generate] changes nothing of the diagram but [Output], and that
    only when it succeeds: description, image type and [lastTouched] are
    always kept; on success [Output] is <outPath>/<id>.<imgType>; on any
    error the diagram is handed back as it came. *)
Theorem generate_changes_only_Output (c : cachingGenerator) (d : Diagram) (w : W) :
  description (run handle (generate fingerprint c d) w).1.1.1 = description d
  ∧ imgType (run handle (generate fingerprint c d) w).1.1.1 = imgType d
  ∧ lastTouched (run handle (generate fingerprint c d) w).1.1.1 = lastTouched d
  ∧ ((run handle (generate fingerprint c d) w).1.1.2 = None →
     ∃ id, ID fingerprint d = Ok id
       ∧ Output (run handle (generate fingerprint c d) w).1.1.1
           = generateOutPath c id (imgType d))
  ∧ (is_Some (run handle (generate fingerprint c d) w).1.1.2 →
     (run handle (generate fingerprint c d) w).1.1.1 = d).
Proof.
  unfold generate. destruct (ID fingerprint d) as [id | e0] eqn:Hid.
  - run_all; do 3 (split; [done |]);
      (split;
       [ intros Hnil; try discriminate Hnil; by exists id
       | intros [? He]; try discriminate He; done ]).
  - cbn. do 3 (split; [done |]). split; [intros [=] | done].
Qed.

(** X10: a diagram without identity is refused before anything is touched:
    [generate] and [delete] return the fingerprint error wrapped as "cannot
    get diagram ID" without a single call to a collaborator. *)
Theorem no_identity_no_calls (c : cachingGenerator) (d : Diagram) (w : W) (err : error) :
  ID fingerprint d = Err err →
  run handle (generate fingerprint c d) w
    = ((d, Some (Errorf "cannot get diagram ID: %w" [] err)), w, [])
  ∧ run handle (delete fingerprint c d) w
    = (Some (Errorf "cannot get diagram ID: %w" [] err), w, []).
Proof.
  intros Hid. unfold generate, delete. by rewrite Hid.
Qed.

(** X11: a generator built by [NewGenerator] uses its arguments in the roles
    their names say: the description goes to <inPath>/<id>.mmd, the
    executable probed and started is [mermaidCLIPath], the output path is
    <outPath>/<id>.<imgType>, and "-p" carries [puppeteerConfigPath]. *)
Theorem NewGenerator_roles (cli inDir outDir config : string) (d : Diagram)
    (id : string) (w : W) :
  ID fingerprint d = Ok id →
  Forall (λ e,
            e = WriteFile (inDir +:+ "/" +:+ id +:+ ".mmd") (description d) perm0644
            ∨ e = Stat cli
            ∨ e = Run cli
                    (["-i"; inDir +:+ "/" +:+ id +:+ ".mmd";
                      "-o"; outDir +:+ "/" +:+ id +:+ "." +:+ imgType d]
                     ++ (if decide (config ≠ "") then ["-p"; config] else []))
            ∨ ∃ msg, e = Printf msg)
         (events (run handle
                    (generate fingerprint (NewGenerator cli inDir outDir config) d) w).2).
Proof.
  intros Hid.
  pose proof (generate_events_args (NewGenerator cli inDir outDir config) d id w Hid) as H.
  eapply Forall_impl; [exact H |]. intros e He.
  unfold mermaidArgs, inputPath, generateOutPath, NewGenerator in He. simpl in He.
  destruct (decide (config ≠ "")); rewrite ?app_nil_r; exact He.
Qed.
End generateMore.

Section CleanUpMore.
Context {W : Type} (handle : ∀ e : event, W → resp e * W).
Variable fingerprint : list byte → string → result string.

(** What one [delete] asks for. *)
Lemma delete_asks (c : cachingGenerator) (d : Diagram) (w : W) :
  Forall (λ a, is_sweep_event (call_event a) = true)
         (run handle (delete fingerprint c d) w).2
  ∧ delete_requests (run handle (delete fingerprint c d) w).2 `sublist_of` [d]
  ∧ Forall (λ path, ∃ id, ID fingerprint d = Ok id
                      ∧ (path = inputPath c id ∨ path = deleteOutPath c id))
           (remove_requests (run handle (delete fingerprint c d) w).2).
Proof.
  unfold delete. destruct (ID fingerprint d) as [id | e0] eqn:Hid.
  - run_all; (split; [by repeat constructor |]);
      (split; [first [done | by apply sublist_nil_l] |]);
      simpl; repeat (constructor; [by eauto |]); constructor.
  - cbn. split; [constructor |]. split; [by apply sublist_nil_l | constructor].
Qed.

(** How one [delete] fails. *)
Lemma delete_outcome (c : cachingGenerator) (d : Diagram) (w : W) :
  fail_fast (run handle (delete fingerprint c d) w).2 = true
  ∧ ((run handle (delete fingerprint c d) w).1.1 = None →
     Forall (λ a, answer_failed a = false) (run handle (delete fingerprint c d) w).2)
  ∧ (∀ err, (run handle (delete fingerprint c d) w).1.1 = Some err →
       ∃ cause,
         err = Errorf "cannot get diagram ID: %w" [] cause
         ∨ err = Errorf "could not delete diagram input: %w" [] cause
         ∨ err = Errorf "could not delete diagram output: %w" [] cause
         ∨ err = Errorf "could not remove diagram from cache: %w" [] cause).
Proof.
  unfold delete. run_all; cbn; (split; [reflexivity |]); split.
  all: try (intros Hnil; try discriminate Hnil; by repeat constructor).
  all: intros ? Herr; injection Herr as <-; eexists; eauto.
Qed.

Lemma fail_fast_cons (a : answered) (tr : list answered) :
  answer_failed a = false → fail_fast tr = true → fail_fast (a :: tr) = true.
Proof. intros Ha Htr. simpl. destruct tr; [done |]. by rewrite Ha, Htr. Qed.

Lemma fail_fast_app (tr1 tr2 : list answered) :
  Forall (λ a, answer_failed a = false) tr1 →
  fail_fast tr2 = true → fail_fast (tr1 ++ tr2) = true.
Proof.
  intros Hok Htr. induction Hok as [| a tr1 Ha _ IH]; [done |].
  rewrite <- app_comm_cons. by apply fail_fast_cons.
Qed.
End CleanUpMore.

Section CleanUpExtras.
Context {W : Type} (handle : ∀ e : event, W → resp e * W).
Variable fingerprint : list byte → string → result string.

(** X12: when the enumeration [cache.GetAll] fails, [CleanUp] returns the
    error wrapped as "could not get cached diagrams" and sweeps nothing: the
    log line and the enumeration are its only calls. *)
Theorem CleanUp_GetAll_failure (c : cachingGenerator) (duration : Z)
    (w w2 : W) (err : error) :
  handle CacheGetAll (handle (Printf "Running cleanup") w).2 = (Err err, w2) →
  run handle (CleanUp fingerprint c duration) w =
    (Some (Errorf "could not get cached diagrams: %w" [] err),
     w2,
     [Call (Printf "Running cleanup") tt; Call CacheGetAll (Err err)]).
Proof.
  intros Hall. rewrite run_CleanUp.
  destruct (handle (Printf "Running cleanup") w) as [[] w1]. simpl in Hall.
  by rewrite Hall.
Qed.

(** X13: [CleanUp] only logs, enumerates, reads the clock, removes files and
    deletes cache records: it never stores a record, never writes a file and
    never starts or probes the backend. *)
Theorem CleanUp_only_sweeps (c : cachingGenerator) (duration : Z) (w : W) :
  Forall (λ a, is_sweep_event (call_event a) = true)
         (run handle (CleanUp fingerprint c duration) w).2.
Proof.
  rewrite run_CleanUp.
  destruct (handle (Printf "Running cleanup") w) as [u w1].
  destruct (handle CacheGetAll w1) as [[ds | err] w2]; [| by repeat constructor].
  pose proof (sweep_ind handle fingerprint c duration
                (λ _ _ tr, Forall (λ a, is_sweep_event (call_event a) = true) tr)) as Hind.
  specialize (Hind (Forall_nil_2 _)).
  unshelve epose proof (Hind _ _ _ ds w2) as Hsweep.
  - intros d rest t r tr _ Htr. by constructor.
  - intros d rest t w3 w4 err trd _ Hdel. constructor; [done |].
    pose proof (proj1 (delete_asks handle fingerprint c d w3)) as H.
    by rewrite Hdel in H.
  - intros d rest t w3 w4 trd r tr _ Hdel Htr. constructor; [done |].
    apply Forall_app. split; [| done].
    pose proof (proj1 (delete_asks handle fingerprint c d w3)) as H.
    by rewrite Hdel in H.
  - destruct (run handle (sweep fingerprint c duration ds) w2) as [[r w3] tr].
    by repeat (constructor; [done |]).
Qed.

(** X14: [CleanUp] asks the cache to delete only records that the
    enumeration returned, in enumeration order and each at most as often as
    it was enumerated; and every path it asks to remove is the input path or
    the .svg output path of the identity of an enumerated record. *)
Theorem CleanUp_deletes_only_enumerated (c : cachingGenerator) (duration : Z)
    (ds : list Diagram) (w w2 : W) :
  handle CacheGetAll (handle (Printf "Running cleanup") w).2 = (Ok ds, w2) →
  delete_requests (run handle (CleanUp fingerprint c duration) w).2 `sublist_of` ds
  ∧ Forall (λ path, ∃ d id, d ∈ ds ∧ ID fingerprint d = Ok id
                      ∧ (path = inputPath c id ∨ path = deleteOutPath c id))
           (remove_requests (run handle (CleanUp fingerprint c duration) w).2).
Proof.
  intros Hall. rewrite run_CleanUp.
  destruct (handle (Printf "Running cleanup") w) as [u w1]. simpl in Hall.
  rewrite Hall.
  pose proof (sweep_ind handle fingerprint c duration
                (λ ds _ tr,
                   delete_requests tr `sublist_of` ds
                   ∧ Forall (λ path, ∃ d id, d ∈ ds ∧ ID fingerprint d = Ok id
                                       ∧ (path = inputPath c id
                                          ∨ path = deleteOutPath c id))
                            (remove_requests tr))) as Hind.
  assert (Hweaken : ∀ d rest l,
             Forall (λ path, ∃ d0 id, d0 ∈ rest ∧ ID fingerprint d0 = Ok id
                               ∧ (path = inputPath c id ∨ path = deleteOutPath c id)) l →
             Forall (λ path, ∃ d0 id, d0 ∈ d :: rest ∧ ID fingerprint d0 = Ok id
                               ∧ (path = inputPath c id ∨ path = deleteOutPath c id)) l).
  { intros d rest l Hl. eapply Forall_impl; [exact Hl |].
    intros path (d0 & id & Hin & Hrest). exists d0, id. split; [| done].
    by apply list_elem_of_further. }
  assert (Hhead : ∀ d rest w3,
             Forall (λ path, ∃ d0 id, d0 ∈ d :: rest ∧ ID fingerprint d0 = Ok id
                               ∧ (path = inputPath c id ∨ path = deleteOutPath c id))
                    (remove_requests (run handle (delete fingerprint c d) w3).2)).
  { intros d rest w3.
    pose proof (proj2 (proj2 (delete_asks handle fingerprint c d w3))) as H.
    eapply Forall_impl; [exact H |].
    intros path (id & Hid & Hpath). exists d, id. split; [| done].
    apply list_elem_of_here. }
  unshelve epose proof (Hind _ _ _ _ ds w2) as Hsweep.
  - split; [done | constructor].
  - intros d rest t r tr _ [Hsub Hrem]. simpl. split.
    + by apply sublist_cons.
    + by apply Hweaken.
  - intros d rest t w3 w4 err trd _ Hdel. simpl.
    pose proof (proj1 (proj2 (delete_asks handle fingerprint c d w3))) as Hsub.
    pose proof (Hhead d rest w3) as Hrem. rewrite Hdel in Hsub, Hrem. simpl in *.
    split; [| done]. etrans; [exact Hsub |].
    apply sublist_skip, sublist_nil_l.
  - intros d rest t w3 w4 trd r tr _ Hdel [Hsub' Hrem']. simpl.
    pose proof (proj1 (proj2 (delete_asks handle fingerprint c d w3))) as Hsub.
    pose proof (Hhead d rest w3) as Hrem. rewrite Hdel in Hsub, Hrem. simpl in *.
    unfold delete_requests, remove_requests in *. rewrite !omap_app. split.
    + by apply (sublist_app _ [d]).
    + apply Forall_app. split; [done | by apply Hweaken].
  - destruct (run handle (sweep fingerprint c duration ds) w2) as [[r w3] tr].
    exact Hsweep.
Qed.
End CleanUpExtras.

Section CleanUpOutcomes.
Context {W : Type} (handle : ∀ e : event, W → resp e * W).
Variable fingerprint : list byte → string → result string.

(** X15: when every enumerated record was touched within the duration (its
    [lastTouched] plus the duration lies after every clock reading of the
    sweep), [CleanUp] returns nil and does nothing but log, enumerate and
    read the clock once per record: no file is removed and no record is
    deleted.  An empty enumeration is the special case with no reading. *)
Theorem CleanUp_all_fresh_removes_nothing (c : cachingGenerator) (duration lo hi : Z)
    (ds : list Diagram) (w w2 : W) :
  handle CacheGetAll (handle (Printf "Running cleanup") w).2 = (Ok ds, w2) →
  clock_within lo hi (run handle (CleanUp fingerprint c duration) w).2 →
  Forall (λ d, hi < lastTouched d + duration) ds →
  (run handle (CleanUp fingerprint c duration) w).1.1 = None
  ∧ kinds (run handle (CleanUp fingerprint c duration) w).2
    = KPrintf :: KGetAll :: replicate (length ds) KNow.
Proof.
  intros Hall. rewrite run_CleanUp.
  destruct (handle (Printf "Running cleanup") w) as [u w1]. simpl in Hall.
  rewrite Hall.
  pose proof (sweep_ind handle fingerprint c duration
                (λ ds r tr,
                   clock_within lo hi tr →
                   Forall (λ d, hi < lastTouched d + duration) ds →
                   r = None ∧ kinds tr = replicate (length ds) KNow)) as Hind.
  unshelve epose proof (Hind _ _ _ _ ds w2) as Hsweep.
  - done.
  - intros d rest t r tr _ IH [_ Hclock]%Forall_cons [_ Hfresh]%Forall_cons.
    destruct (IH Hclock Hfresh) as [-> Hk]. split; [done |]. simpl. by rewrite Hk.
  - intros d rest t w3 w4 err trd Hcmp _ [Ht _]%Forall_cons [Hd _]%Forall_cons.
    apply Z.ltb_ge in Hcmp. specialize (Ht t eq_refl). lia.
  - intros d rest t w3 w4 trd r tr Hcmp _ _ [Ht _]%Forall_cons [Hd _]%Forall_cons.
    apply Z.ltb_ge in Hcmp. specialize (Ht t eq_refl). lia.
  - destruct (run handle (sweep fingerprint c duration ds) w2) as [[r w3] tr].
    simpl in *. intros [_ [_ Hclock]%Forall_cons]%Forall_cons Hfresh.
    destruct (Hsweep Hclock Hfresh) as [-> Hk]. split; [done |]. by rewrite Hk.
Qed.

(** The error of a failed [delete] comes from its failed step. *)
Lemma delete_error_step (c : cachingGenerator) (d : Diagram) (w w' : W)
    (derr : error) (tr : list answered) :
  run handle (delete fingerprint c d) w = (Some derr, w', tr) →
  delete_error_at fingerprint c d tr derr.
Proof.
  unfold delete, delete_error_at.
  run_all; intros Hrun; try discriminate Hrun;
    injection Hrun; intros; subst; cbn; pick_case.
Qed.

(** Calls made before do not change where the error comes from. *)
Lemma delete_error_at_app (c : cachingGenerator) (d : Diagram)
    (pre tr : list answered) (derr : error) :
  delete_error_at fingerprint c d tr derr →
  delete_error_at fingerprint c d (pre ++ tr) derr.
Proof.
  unfold delete_error_at.
  intros [(cause & Hid & ->) | [(id & cause & Hid & Hlast & ->)
          | [(id & cause & Hid & Hlast & ->) | (cause & Hlast & ->)]]];
    rewrite ?last_app, ?Hlast.
  - left. by eexists.
  - right; left. by eexists _, _.
  - right; right; left. by eexists _, _.
  - right; right; right. by eexists.
Qed.

(** X16: every error of [CleanUp] is the error of the step that failed,
    wrapped under that step's name.  Either the last call is the enumeration
    that failed and the error is "could not get cached diagrams" around its
    answer; or the enumeration succeeded, and the error is "could not delete
    diagram" around the error that [delete] reports for an enumerated record:
    that record has no identity, or the last call of the sweep is the failed
    removal of its input path, of its .svg output path or of its cache
    record, and the error wraps that call's answer under the message of that
    step. *)
Theorem CleanUp_error_forms (c : cachingGenerator) (duration : Z) (w w' : W)
    (err : error) (tr : list answered) :
  run handle (CleanUp fingerprint c duration) w = (Some err, w', tr) →
  (∃ cause,
      last tr = Some (Call CacheGetAll (Err cause))
      ∧ err = Errorf "could not get cached diagrams: %w" [] cause)
  ∨ (∃ ds tr0 d derr,
        tr = Call (Printf "Running cleanup") tt :: Call CacheGetAll (Ok ds) :: tr0
        ∧ d ∈ ds
        ∧ delete_error_at fingerprint c d tr derr
        ∧ err = Errorf "could not delete diagram: %w" [] derr).
Proof.
  rewrite run_CleanUp.
  destruct (handle (Printf "Running cleanup") w) as [[] w1].
  destruct (handle CacheGetAll w1) as [[ds | e0] w2];
    [| intros [= <- _ <-]; left; by eexists].
  pose proof (sweep_ind handle fingerprint c duration
                (λ ds r tr,
                   ∀ err, r = Some err →
                     ∃ d derr,
                       d ∈ ds
                       ∧ delete_error_at fingerprint c d tr derr
                       ∧ err = Errorf "could not delete diagram: %w" [] derr)) as Hind.
  unshelve epose proof (Hind _ _ _ _ ds w2) as Hsweep.
  - intros ? [=].
  - intros d rest t r tr0 _ IH e1 He1.
    destruct (IH e1 He1) as (d0 & derr & Hin & Hat & ->).
    exists d0, derr. split; [by apply list_elem_of_further |]. split; [| done].
    by apply (delete_error_at_app c d0 [Call Now t]).
  - intros d rest t w3 w4 e1 trd _ Hdel ? [= <-].
    exists d, e1. split; [apply list_elem_of_here |]. split; [| done].
    apply (delete_error_at_app c d [Call Now t]).
    by apply (delete_error_step c d w3 w4).
  - intros d rest t w3 w4 trd r tr0 _ _ IH e1 He1.
    destruct (IH e1 He1) as (d0 & derr & Hin & Hat & ->).
    exists d0, derr. split; [by apply list_elem_of_further |]. split; [| done].
    by apply (delete_error_at_app c d0 (Call Now t :: trd)).
  - destruct (run handle (sweep fingerprint c duration ds) w2) as [[r w3] tr0].
    intros [= -> _ <-]. right.
    destruct (Hsweep err eq_refl) as (d0 & derr & Hin & Hat & ->).
    exists ds, tr0, d0, derr. split; [done |]. split; [done |]. split; [| done].
    by apply (delete_error_at_app c d0
                [Call (Printf "Running cleanup") tt; Call CacheGetAll (Ok ds)]).
Qed.

(** X17: [CleanUp] stops at the first call that fails: in every run no call
    but the last one was answered with an error, and when [CleanUp] returns
    nil no call was. *)
Theorem CleanUp_fail_fast (c : cachingGenerator) (duration : Z) (w : W) :
  fail_fast (run handle (CleanUp fingerprint c duration) w).2 = true
  ∧ ((run handle (CleanUp fingerprint c duration) w).1.1 = None →
     Forall (λ a, answer_failed a = false)
            (run handle (CleanUp fingerprint c duration) w).2).
Proof.
  rewrite run_CleanUp.
  destruct (handle (Printf "Running cleanup") w) as [u w1].
  destruct (handle CacheGetAll w1) as [[ds | e0] w2]; [| by split].
  pose proof (sweep_ind handle fingerprint c duration
                (λ _ r tr,
                   fail_fast tr = true
                   ∧ (r = None → Forall (λ a, answer_failed a = false) tr))) as Hind.
  unshelve epose proof (Hind _ _ _ _ ds w2) as Hsweep.
  - by split.
  - intros d rest t r tr _ [Hff Hok]. split.
    + by apply fail_fast_cons.
    + intros Hr. constructor; [done | by apply Hok].
  - intros d rest t w3 w4 e1 trd _ Hdel. split; [| done].
    pose proof (proj1 (delete_outcome handle fingerprint c d w3)) as H.
    rewrite Hdel in H. by apply fail_fast_cons.
  - intros d rest t w3 w4 trd r tr _ Hdel [Hff Hok].
    pose proof (proj1 (proj2 (delete_outcome handle fingerprint c d w3))) as H.
    rewrite Hdel in H. specialize (H eq_refl). split.
    + apply fail_fast_cons; [done |]. by apply fail_fast_app.
    + intros Hr. constructor; [done |]. apply Forall_app. split; [done | by apply Hok].
  - destruct (run handle (sweep fingerprint c duration ds) w2) as [[r w3] tr].
    destruct Hsweep as [Hff Hok]. split.
    + apply fail_fast_cons; [done |]. by apply fail_fast_cons.
    + intros Hr. by repeat (constructor; [done |]); apply Hok.
Qed.
End CleanUpOutcomes.

(** ** File names *)

Section PathFacts.

(** X18: the two files that [delete] removes never coincide, and the input
    file of one identity is never the .svg output path of any identity:
    whatever the directories and identities, <inPath>/<id>.mmd differs from
    <outPath>/<id'>.svg. *)
Theorem delete_removals_distinct (c : cachingGenerator) (id id' : string) :
  inputPath c id ≠ deleteOutPath c id'.
Proof.
  unfold inputPath, deleteOutPath. intros Heq.
  rewrite <- !(string_app_assoc _ "/"), <- !string_app_assoc in Heq.
  by apply string_app_suffix in Heq as [_ [=]].
Qed.

(** X19: file names are namespaced by identity: for one generator, two
    identities share an input path only if they are equal, and likewise for
    the .svg path that [delete] removes and for the output path of
    [generate] at a given image type. *)
Theorem paths_injective_in_identity (c : cachingGenerator) (id1 id2 : string) :
  (inputPath c id1 = inputPath c id2 → id1 = id2)
  ∧ (deleteOutPath c id1 = deleteOutPath c id2 → id1 = id2)
  ∧ (∀ ty, generateOutPath c id1 ty = generateOutPath c id2 ty → id1 = id2).
Proof.
  unfold inputPath, deleteOutPath, generateOutPath.
  split; [| split]; [intros Heq | intros Heq | intros ty Heq];
    do 2 apply String.app_inj in Heq;
    by apply string_app_suffix in Heq as [-> _].
Qed.
End PathFacts.

(** ** Generating twice *)

Section GenerateTwice.
Context {W : Type} (handle : ∀ e : event, W → resp e * W).
Variable fingerprint : list byte → string → result string.

(** The world [Generate] leaves on success is the one its Store left. *)
Lemma Generate_nil_world (c : cachingGenerator) (d d' : Diagram) (w w' : W)
    (tr : list answered) :
  run handle (Generate fingerprint c d) w = ((d', None), w', tr) →
  ∃ w0, handle (CacheStore d') w0 = (None, w').
Proof.
  unfold Generate, Touch, generate. run_all; intros Hrun; try discriminate Hrun.
  all: injection Hrun as <- <- _; by eexists.
Qed.

(** X20: generating is idempotent over a cache that finds what it stored.
    When [cache.Has] answers true for every diagram of the identity of the
    one just stored, a [Generate] that follows a successful [Generate] for
    the same identity makes no render or file call: the backend runs once. *)
Theorem Generate_again_does_not_render
    (Hfound : ∀ d0 d2 w0,
        (handle (CacheStore d0) w0).1 = None →
        ID fingerprint d2 = ID fingerprint d0 →
        (handle (CacheHas d2) (handle (CacheStore d0) w0).2).1 = Ok true)
    (c : cachingGenerator) (d d' d2 : Diagram) (w w' : W) (tr : list answered) :
  run handle (Generate fingerprint c d) w = ((d', None), w', tr) →
  ID fingerprint d2 = ID fingerprint d' →
  Forall (λ a, is_render_or_file (call_event a) = false)
         (run handle (Generate fingerprint c d2) w').2.
Proof.
  intros Hrun Hid.
  destruct (Generate_nil_world _ _ _ _ _ _ Hrun) as [w0 Hstore].
  pose proof (Hfound d' d2 w0) as Hhas. rewrite Hstore in Hhas.
  specialize (Hhas eq_refl Hid). simpl in Hhas.
  unfold Generate, Touch. cbn -[run generate].
  rewrite run_Vis. destruct (handle (CacheHas d2) w') as [has w1].
  simpl in Hhas. subst has. cbn -[run generate].
  run_all; by repeat constructor.
Qed.
End GenerateTwice.

(** The in-memory cache of the reference host finds what it stored. *)
Lemma Host_find_upsert (id : string) (d : Diagram) (l : list (string * Diagram)) :
  Host.find_id id (Host.upsert id d l) = Some d.
Proof.
  induction l as [| [k d0] rest IH]; simpl.
  - by rewrite decide_True.
  - destruct (decide (k = id)) as [-> | Hne]; simpl.
    + by rewrite decide_True.
    + by rewrite decide_False.
Qed.

Lemma Host_store_then_has (fingerprint : list byte → string → result string)
    (d0 d2 : Diagram) (w0 : Host.World) :
  (Host.handle fingerprint (CacheStore d0) w0).1 = None →
  ID fingerprint d2 = ID fingerprint d0 →
  (Host.handle fingerprint (CacheHas d2) (Host.handle fingerprint (CacheStore d0) w0).2).1
    = Ok true.
Proof.
  simpl. intros Hstore ->.
  destruct (fingerprint (description d0) (imgType d0)) as [id | err]; [| done].
  simpl. rewrite Host_find_upsert. by rewrite bool_decide_eq_true_2.
Qed.

(** ** Runs of the further properties *)

(** With [unreadableCache] the caller keeps its own diagram. *)
Lemma Generate_Get_failure_keeps_diagram_witness :
  run (scripted unreadableCache) (Generate plainFingerprint demoGenerator diagramA) tt
    = ((diagramA, Some (Errorf "cache.Get failed: %w" [] (OtherError "unreadable"))),
       tt,
       [Call (CacheHas diagramA) (Ok true);
        Call (CacheGet diagramA) (Err (OtherError "unreadable"))]).
Proof.
  apply (Generate_Get_failure_keeps_diagram (scripted unreadableCache) plainFingerprint
           demoGenerator diagramA tt tt tt (OtherError "unreadable"));
    reflexivity.
Defined.

(** On [readyHost] the first [Generate] of "a" succeeds and ends with the
    Store of the diagram it returns. *)
Lemma Generate_nil_means_stored_witness :
  readyRun.1.1.2 = None
  ∧ ∃ tr0,
      readyRun.2 = tr0 ++ [Call (CacheStore readyRun.1.1.1) None]
      ∧ Forall (λ a, is_store (call_event a) = false) tr0.
Proof.
  split; [reflexivity |].
  apply (Generate_nil_means_stored (Host.handle plainFingerprint) plainFingerprint
           demoGenerator diagramA readyRun.1.1.1 readyHost readyRun.1.2 readyRun.2).
  vm_compute. reflexivity.
Defined.

(** On [bareHost] the last call is the Stat that failed and the error wraps
    its answer. *)
Lemma Generate_error_forms_witness :
  bareRun.1.1.2 = Some bareError
  ∧ last bareRun.2 = Some (Call (Stat "/bin/mmdc") (Some noMmdc))
  ∧ ((∃ cause,
        last bareRun.2 = Some (Call (CacheHas diagramA) (Err cause))
        ∧ bareError = Errorf "cache.Has failed: %w" [] cause)
     ∨ (∃ cause,
          last bareRun.2 = Some (Call (CacheGet diagramA) (Err cause))
          ∧ bareError = Errorf "cache.Get failed: %w" [] cause)
     ∨ (∃ cause,
          last bareRun.2 = Some (Call (CacheStore bareRun.1.1.1) (Some cause))
          ∧ bareError = Errorf "cache.Store failed: %w" [] cause)
     ∨ (∃ gerr,
          generate_error_at plainFingerprint demoGenerator diagramA bareRun.2 gerr
          ∧ bareError = Errorf "cachingGenerater.generate failed: %w" [] gerr)).
Proof.
  split; [reflexivity |]. split; [reflexivity |].
  apply (Generate_error_forms (Host.handle plainFingerprint) plainFingerprint
           demoGenerator diagramA bareRun.1.1.1 bareHost bareRun.1.2 bareError bareRun.2).
  vm_compute. reflexivity.
Defined.

(** On [readyHost] the rendered diagram is stored and returned. *)
Lemma Generate_miss_render_success_witness :
  readyRun.1.1 = (set_Output (set_lastTouched diagramA 500) "out/a.svg", None)
  ∧ ∃ id, ID plainFingerprint diagramA = Ok id
      ∧ set_Output (set_lastTouched diagramA 500) "out/a.svg"
        = set_Output (set_lastTouched diagramA 500)
            (generateOutPath demoGenerator id (imgType diagramA)).
Proof.
  destruct (Generate_miss_render_success (Host.handle plainFingerprint) plainFingerprint
              demoGenerator diagramA
              (set_Output (set_lastTouched diagramA 500) "out/a.svg")
              readyHost readyHost (Host.advance readyHost)
              (run (Host.handle plainFingerprint)
                   (generate plainFingerprint demoGenerator (set_lastTouched diagramA 500))
                   (Host.advance readyHost)).1.2
              readyRun.1.2 500 None
              (run (Host.handle plainFingerprint)
                   (generate plainFingerprint demoGenerator (set_lastTouched diagramA 500))
                   (Host.advance readyHost)).2)
    as [Hrun Hid]; try (vm_compute; reflexivity).
  split; [| exact Hid].
  unfold readyRun. by rewrite Hrun.
Defined.

(** On [bareHost] the failed call hands back the caller's description. *)
Lemma Generate_miss_keeps_identity_witness :
  Host.handle plainFingerprint (CacheHas diagramA) bareHost = (Ok false, bareHost)
  ∧ description (run (Host.handle plainFingerprint)
                     (Generate plainFingerprint demoGenerator diagramA) bareHost).1.1.1
    = description diagramA.
Proof.
  split; [reflexivity |].
  apply (Generate_miss_keeps_identity (Host.handle plainFingerprint) plainFingerprint
           demoGenerator diagramA bareHost bareHost eq_refl).
Defined.

(** On [readyHost] no call of the successful run failed. *)
Lemma Generate_fail_fast_witness :
  readyRun.1.1.2 = None
  ∧ Forall (λ a, answer_failed a = false) readyRun.2.
Proof.
  split; [reflexivity |].
  apply (proj2 (Generate_fail_fast (Host.handle plainFingerprint) plainFingerprint
                  demoGenerator diagramA readyHost)).
  reflexivity.
Defined.

(** On [readyHost] every call of [generate] is one of the four. *)
Lemma generate_call_order_witness :
  ID plainFingerprint diagramA = Ok "a"
  ∧ Forall (λ e,
              e = WriteFile (inputPath demoGenerator "a") (description diagramA) perm0644
              ∨ e = Stat (mermaidCLIPath demoGenerator)
              ∨ e = Run (mermaidCLIPath demoGenerator)
                      (mermaidArgs demoGenerator (inputPath demoGenerator "a")
                         (generateOutPath demoGenerator "a" (imgType diagramA)))
              ∨ ∃ msg, e = Printf msg)
           (events (run (Host.handle plainFingerprint)
                        (generate plainFingerprint demoGenerator diagramA) readyHost).2).
Proof.
  split; [reflexivity |].
  apply (proj2 (generate_call_order (Host.handle plainFingerprint) plainFingerprint
                  demoGenerator diagramA readyHost) "a").
  reflexivity.
Defined.

(** On [readyHost] a successful [generate] sets [Output] to out/a.svg. *)
Lemma generate_changes_only_Output_witness :
  (run (Host.handle plainFingerprint)
       (generate plainFingerprint demoGenerator diagramA) readyHost).1.1.2 = None
  ∧ ∃ id, ID plainFingerprint diagramA = Ok id
      ∧ Output (run (Host.handle plainFingerprint)
                    (generate plainFingerprint demoGenerator diagramA) readyHost).1.1.1
        = generateOutPath demoGenerator id (imgType diagramA).
Proof.
  split; [reflexivity |].
  apply (proj1 (proj2 (proj2 (proj2
           (generate_changes_only_Output (Host.handle plainFingerprint) plainFingerprint
              demoGenerator diagramA readyHost))))).
  reflexivity.
Defined.

(** An empty description has no identity. *)
Lemma no_identity_no_calls_witness :
  ID plainFingerprint (demoDiagram "" "svg" 0) = Err (OtherError "empty description")
  ∧ run (Host.handle plainFingerprint)
        (delete plainFingerprint demoGenerator (demoDiagram "" "svg" 0)) warmHost
    = (Some (Errorf "cannot get diagram ID: %w" [] (OtherError "empty description")),
       warmHost, []).
Proof.
  split; [reflexivity |].
  apply (proj2 (no_identity_no_calls (Host.handle plainFingerprint) plainFingerprint
                  demoGenerator (demoDiagram "" "svg" 0) warmHost
                  (OtherError "empty description") eq_refl)).
Defined.

(** A generator built from four distinct strings. *)
Lemma NewGenerator_roles_witness :
  ID plainFingerprint diagramA = Ok "a"
  ∧ Forall (λ e,
              e = WriteFile ("in" +:+ "/" +:+ "a" +:+ ".mmd") (description diagramA) perm0644
              ∨ e = Stat "/bin/mmdc"
              ∨ e = Run "/bin/mmdc"
                      (["-i"; "in" +:+ "/" +:+ "a" +:+ ".mmd";
                        "-o"; "out" +:+ "/" +:+ "a" +:+ "." +:+ imgType diagramA]
                       ++ (if decide ("pptr.json" ≠ "") then ["-p"; "pptr.json"] else []))
              ∨ ∃ msg, e = Printf msg)
           (events (run (Host.handle plainFingerprint)
                        (generate plainFingerprint
                           (NewGenerator "/bin/mmdc" "in" "out" "pptr.json") diagramA)
                        readyHost).2).
Proof.
  split; [reflexivity |].
  apply (NewGenerator_roles (Host.handle plainFingerprint) plainFingerprint
           "/bin/mmdc" "in" "out" "pptr.json" diagramA "a" readyHost).
  reflexivity.
Defined.

(** With [unreadableCache] the sweep ends at the enumeration. *)
Lemma CleanUp_GetAll_failure_witness :
  run (scripted unreadableCache) (CleanUp plainFingerprint demoGenerator 24) tt
    = (Some (Errorf "could not get cached diagrams: %w" [] (OtherError "unreadable")),
       tt,
       [Call (Printf "Running cleanup") tt;
        Call CacheGetAll (Err (OtherError "unreadable"))]).
Proof.
  apply (CleanUp_GetAll_failure (scripted unreadableCache) plainFingerprint
           demoGenerator 24 tt tt (OtherError "unreadable")).
  reflexivity.
Defined.

(** On [tidyHost] only "b" is deleted, out of the enumerated "b" and "c". *)
Lemma CleanUp_deletes_only_enumerated_witness :
  (Host.handle plainFingerprint CacheGetAll tidyHost).1 = Ok [cachedB; cachedC]
  ∧ delete_requests tidySweep.2 = [cachedB]
  ∧ delete_requests tidySweep.2 `sublist_of` [cachedB; cachedC].
Proof.
  split; [reflexivity |]. split; [reflexivity |].
  apply (proj1 (CleanUp_deletes_only_enumerated (Host.handle plainFingerprint)
                  plainFingerprint demoGenerator 24 [cachedB; cachedC]
                  tidyHost tidyHost eq_refl)).
Defined.

(** On [freshHost] the sweep removes nothing. *)
Lemma CleanUp_all_fresh_removes_nothing_witness :
  clock_within 500 500 freshSweep.2
  ∧ Forall (λ d, 500 < lastTouched d + 24) [cachedC]
  ∧ freshSweep.1.1 = None
  ∧ kinds freshSweep.2 = [KPrintf; KGetAll; KNow].
Proof.
  assert (Hclock : clock_within 500 500 freshSweep.2).
  { unfold clock_within. set (tr := freshSweep.2). vm_compute in tr. subst tr.
    repeat (constructor; [intros t Ht; simpl in Ht; simplify_eq; lia |]).
    constructor. }
  assert (Hfresh : Forall (λ d, 500 < lastTouched d + 24) [cachedC]).
  { repeat constructor. }
  split; [exact Hclock |]. split; [exact Hfresh |].
  apply (CleanUp_all_fresh_removes_nothing (Host.handle plainFingerprint) plainFingerprint
           demoGenerator 24 500 500 [cachedC] freshHost freshHost eq_refl Hclock Hfresh).
Defined.

(** On [staleHost] the last call is the failed removal of in/a.mmd and the
    error wraps its answer. *)
Lemma CleanUp_error_forms_witness :
  staleSweep.1.1 = Some staleError
  ∧ last staleSweep.2
    = Some (Call (Remove "in/a.mmd") (Some (PathError "remove" "in/a.mmd" true)))
  ∧ ((∃ cause,
        last staleSweep.2 = Some (Call CacheGetAll (Err cause))
        ∧ staleError = Errorf "could not get cached diagrams: %w" [] cause)
     ∨ (∃ ds tr0 d derr,
          staleSweep.2
          = Call (Printf "Running cleanup") tt :: Call CacheGetAll (Ok ds) :: tr0
          ∧ d ∈ ds
          ∧ delete_error_at plainFingerprint demoGenerator d staleSweep.2 derr
          ∧ staleError = Errorf "could not delete diagram: %w" [] derr)).
Proof.
  split; [reflexivity |]. split; [reflexivity |].
  apply (CleanUp_error_forms (Host.handle plainFingerprint) plainFingerprint
           demoGenerator 24 staleHost staleSweep.1.2 staleError staleSweep.2).
  vm_compute. reflexivity.
Defined.

(** On [tidyHost] the sweep returns nil and no call failed. *)
Lemma CleanUp_fail_fast_witness :
  tidySweep.1.1 = None
  ∧ Forall (λ a, answer_failed a = false) tidySweep.2.
Proof.
  split; [reflexivity |].
  apply (proj2 (CleanUp_fail_fast (Host.handle plainFingerprint) plainFingerprint
                  demoGenerator 24 tidyHost)).
  reflexivity.
Defined.

(** Distinct identities, distinct input files. *)
Lemma paths_injective_in_identity_witness :
  "a" ≠ "b" ∧ inputPath demoGenerator "a" ≠ inputPath demoGenerator "b".
Proof.
  split; [discriminate |].
  intros Heq.
  apply (proj1 (paths_injective_in_identity demoGenerator "a" "b")) in Heq.
  discriminate Heq.
Defined.

(** On [readyHost] a second [Generate] of "a" does not render. *)
Lemma Generate_again_does_not_render_witness :
  readyRun.1.1.2 = None
  ∧ Forall (λ a, is_render_or_file (call_event a) = false)
           (run (Host.handle plainFingerprint)
                (Generate plainFingerprint demoGenerator diagramA) readyRun.1.2).2.
Proof.
  split; [reflexivity |].
  apply (Generate_again_does_not_render (Host.handle plainFingerprint) plainFingerprint
           (Host_store_then_has plainFingerprint)
           demoGenerator diagramA readyRun.1.1.1 diagramA readyHost readyRun.1.2
           readyRun.2).
  - vm_compute. reflexivity.
  - reflexivity.
Defined.
